(** * gemini-chatbot: the chat session and the document loader

    A shallow embedding of [src/chat.py] ([GeminiChat]) and of
    [src/document_loader.py] ([DocumentLoader]), and the properties of the
    specification proved (or refuted) on it.

    Conventions.
    - A Python [str] is a [string] holding the UTF-8 encoding of the text;
      concatenation, prefix and equality of texts are those of their
      encodings.  A Python [bytes] is a [list byte].
    - A call that may raise returns an [outcome]: [Ret v] or [Raise e].
    - The [dict] of documents is an association list in insertion order. *)

From Stdlib Require Import List String Ascii ZArith NArith Bool Lia.
From Stdlib.Strings Require Import Byte.
From Stdlib Require Import DecimalString.
Import ListNotations.
Local Open Scope list_scope.
Local Open Scope string_scope.

(** ** Python values shared by both modules *)

Module Py.

(** The line feed, written ["\n"] in the source. *)
Definition LF : string := String "010"%char EmptyString.

(** Exception classes that the two modules raise, catch or let through.
    [KeyboardInterrupt], [SystemExit] and [GeneratorExit] derive from
    [BaseException] and not from [Exception], so that [except Exception]
    lets them through.  [OtherError name] is any other class derived from
    [Exception], [OtherBase name] any other class derived from
    [BaseException] only. *)
Inductive exn_class : Type :=
| BaseException
| Exception
| KeyboardInterrupt
| SystemExit
| GeneratorExit
| ValueError
| UnicodeDecodeError
| OSError
| FileNotFoundError
| RequestException
| HTTPError
| ConnectionError
| Timeout
| OtherError (name : string)
| OtherBase (name : string).

(** An exception instance: its class and [str(e)]. *)
Record exn : Type := MkExn { exn_cls : exn_class; exn_str : string }.

Definition exn_class_eqb (c d : exn_class) : bool :=
  match c, d with
  | BaseException, BaseException | Exception, Exception
  | KeyboardInterrupt, KeyboardInterrupt | SystemExit, SystemExit
  | GeneratorExit, GeneratorExit | ValueError, ValueError
  | UnicodeDecodeError, UnicodeDecodeError | OSError, OSError
  | FileNotFoundError, FileNotFoundError
  | RequestException, RequestException | HTTPError, HTTPError
  | ConnectionError, ConnectionError | Timeout, Timeout => true
  | OtherError a, OtherError b => String.eqb a b
  | OtherBase a, OtherBase b => String.eqb a b
  | _, _ => false
  end.

(** The direct base class, as in the Python and [requests] hierarchies. *)
Definition base (c : exn_class) : option exn_class :=
  match c with
  | BaseException => None
  | Exception => Some BaseException
  | KeyboardInterrupt => Some BaseException
  | SystemExit => Some BaseException
  | GeneratorExit => Some BaseException
  | ValueError => Some Exception
  | UnicodeDecodeError => Some ValueError
  | OSError => Some Exception
  | FileNotFoundError => Some OSError
  | RequestException => Some OSError
  | HTTPError => Some RequestException
  | ConnectionError => Some RequestException
  | Timeout => Some RequestException
  | OtherError _ => Some Exception
  | OtherBase _ => Some BaseException
  end.

Fixpoint issubclass_fuel (n : nat) (c d : exn_class) : bool :=
  exn_class_eqb c d ||
  match n with
  | O => false
  | S n' => match base c with
            | Some b => issubclass_fuel n' b d
            | None => false
            end
  end.

(** [issubclass(c, d)]; no class above is more than four steps below
    [BaseException]. *)
Definition issubclass (c d : exn_class) : bool := issubclass_fuel 4 c d.

Definition isinstance (e : exn) (d : exn_class) : bool :=
  issubclass (exn_cls e) d.

(** The result of a call: a value, or a raised exception. *)
Inductive outcome (A : Type) : Type :=
| Ret (a : A)
| Raise (e : exn).
Arguments Ret {A} a.
Arguments Raise {A} e.

Definition bind {A B : Type} (m : outcome A) (k : A -> outcome B) : outcome B :=
  match m with
  | Ret a => k a
  | Raise e => Raise e
  end.

(** [try: body  except cls as e: handler(e)]. *)
Definition try_except {A : Type} (body : outcome A) (cls : exn_class)
           (handler : exn -> outcome A) : outcome A :=
  match body with
  | Ret a => Ret a
  | Raise e => if isinstance e cls then handler e else Raise e
  end.

Definition raises {A : Type} (m : outcome A) : Prop :=
  exists e, m = Raise e.

Definition returns {A : Type} (m : outcome A) : Prop :=
  exists a, m = Ret a.

(** [sep.join(parts)]. *)
Fixpoint join (sep : string) (parts : list string) : string :=
  match parts with
  | [] => ""
  | [p] => p
  | p :: rest => p ++ sep ++ join sep rest
  end.

(** [s.startswith(p)]. *)
Definition startswith (s p : string) : bool := String.prefix p s.

End Py.

Notation "x <- m ;; k" := (Py.bind m (fun x => k))
  (at level 61, m at next level, right associativity).

Import Py.

(** ** [src/chat.py] *)

Module Chat.

(** [dict[str, str]]: entries in insertion order, one entry per key. *)
Definition dict : Type := list (string * string).

Definition keys (d : dict) : list string := map fst d.

Definition items (d : dict) : list (string * string) := d.

(** [k in d]. *)
Fixpoint contains (k : string) (d : dict) : bool :=
  match d with
  | [] => false
  | (k', _) :: d' => String.eqb k' k || contains k d'
  end.

(** [d[k] = v]: an existing key keeps its place and takes the new value,
    a new key goes to the end. *)
Fixpoint setitem (k v : string) (d : dict) : dict :=
  match d with
  | [] => [(k, v)]
  | (k', v') :: d' =>
      if String.eqb k' k then (k', v) :: d' else (k', v') :: setitem k v d'
  end.

(** [del d[k]] for a key that is present; the other entries keep their
    order. *)
Fixpoint delitem (k : string) (d : dict) : dict :=
  match d with
  | [] => []
  | (k', v') :: d' =>
      if String.eqb k' k then d' else (k', v') :: delitem k d'
  end.

(** The invariant of a [dict]: no key occurs twice. *)
Definition wf (d : dict) : Prop := NoDup (keys d).

(** The object returned by [generate_content]: reading [.text] may itself
    raise (a blocked or empty candidate). *)
Record GenerateContentResponse : Type := { text : outcome string }.

(** [genai.GenerativeModel]: the external model-completion call. *)
Record GenerativeModel : Type :=
  { generate_content : string -> outcome GenerateContentResponse }.

Record GeminiChat : Type :=
  { model : GenerativeModel;
    documents : dict }.

Definition set_documents (self : GeminiChat) (d : dict) : GeminiChat :=
  {| model := model self; documents := d |}.

Definition add_document (filename content : string) (self : GeminiChat)
  : GeminiChat :=
  set_documents self (setitem filename content (documents self)).

Definition remove_document (filename : string) (self : GeminiChat)
  : outcome GeminiChat :=
  if contains filename (documents self)
  then Ret (set_documents self (delitem filename (documents self)))
  else Ret self.

Definition clear_documents (self : GeminiChat) : GeminiChat :=
  set_documents self [].

Definition get_document_list (self : GeminiChat) : list string :=
  keys (documents self).

Definition NO_DOCUMENTS : string :=
  "ドキュメントがアップロードされていません。サイドバーからファイルをアップロードしてください。".

Definition ERROR_PREFIX : string := "エラーが発生しました: ".

(** One entry of [context_parts]: [f"=== {filename} ===\n{content}"]. *)
Definition section_of (item : string * string) : string :=
  "=== " ++ fst item ++ " ===" ++ LF ++ snd item.

(** The [for filename, content in self.documents.items()] loop, appending
    to [context_parts]. *)
Definition context_parts (d : dict) : list string :=
  fold_left (fun acc item => (acc ++ [section_of item])%list) (items d) [].

Definition PREAMBLE : string :=
  "あなたは親切で知識豊富なアシスタントです。" ++ LF ++
  "以下のドキュメントの内容を参考に、ユーザーの質問に日本語で回答してください。" ++ LF ++
  LF.

Definition RULES : string :=
  "## ルール" ++ LF ++
  "- ドキュメントの内容に基づいて正確に回答してください" ++ LF ++
  "- ドキュメントに情報がない場合は、その旨を伝えてください" ++ LF ++
  "- 回答は分かりやすく、簡潔にしてください" ++ LF ++
  "- 必要に応じて箇条書きや見出しを使ってください" ++ LF ++
  LF.

Definition DOCUMENTS_HEADING : string := "## ドキュメント" ++ LF.

Definition QUERY_HEADING : string := LF ++ LF ++ "## ユーザーの質問" ++ LF.

Definition ANSWER_HEADING : string := LF ++ LF ++ "## 回答".

(** The f-string of [generate]. *)
Definition build_prompt (context query : string) : string :=
  PREAMBLE ++ RULES ++ DOCUMENTS_HEADING ++ context ++
  QUERY_HEADING ++ query ++ ANSWER_HEADING.

(** [generate] returns the answer (or raises) together with the prompts it
    passed to [generate_content], in call order. *)
Definition generate (self : GeminiChat) (query : string)
  : outcome string * list string :=
  match documents self with
  | [] => (Ret NO_DOCUMENTS, [])
  | _ :: _ =>
      let context := join (LF ++ LF) (context_parts (documents self)) in
      let prompt := build_prompt context query in
      (try_except
         (response <- generate_content (model self) prompt ;;
          text response)
         Exception
         (fun e => Ret (ERROR_PREFIX ++ exn_str e)),
       [prompt])
  end.

End Chat.

(** ** The codecs behind [bytes.decode]

    [bytes.decode] belongs to the Python runtime, not to this repository.
    [DocumentLoader] takes it as a collaborator (see [Loader.Extern]); this
    module gives the instance used to run the loader on concrete inputs.  It
    follows CPython's decoders: UTF-8 with the error ranges of
    [unicode_decode_utf8], CP932 and Shift_JIS with the control flow of
    [_codecs_jp.c].  The two-byte tables of the Japanese codecs are an
    argument; [kana_tables] fills in the hiragana and katakana rows. *)

Module Codecs.

(** The [errors] argument of [bytes.decode]. *)
Inductive errors : Type := Strict | Ignore | Replace.

(** What a decoder finds, left to right: decoded text, or a run of bytes it
    rejects. *)
Inductive piece : Type :=
| Text (s : string)
| Bad (bs : list byte) (reason : string).

Definition code (b : byte) : N := Byte.to_N b.

Definition chr (n : N) : ascii := ascii_of_N n.

Definition within (r : N * N) (n : N) : bool :=
  (fst r <=? n)%N && (n <=? snd r)%N.

(** The UTF-8 encoding of a code point. *)
Definition utf8_encode (cp : N) : string :=
  if (cp <? 0x80)%N then String (chr cp) ""
  else if (cp <? 0x800)%N then
    String (chr (0xC0 + cp / 64)) (String (chr (0x80 + cp mod 64)) "")
  else if (cp <? 0x10000)%N then
    String (chr (0xE0 + cp / 4096))
      (String (chr (0x80 + (cp / 64) mod 64))
         (String (chr (0x80 + cp mod 64)) ""))
  else
    String (chr (0xF0 + cp / 262144))
      (String (chr (0x80 + (cp / 4096) mod 64))
         (String (chr (0x80 + (cp / 64) mod 64))
            (String (chr (0x80 + cp mod 64)) ""))).

(** U+FFFD, what [errors="replace"] puts in place of a rejected run. *)
Definition REPLACEMENT : string := utf8_encode 0xFFFD.

Definition cont : N * N := (0x80, 0xBF)%N.

(** For a lead byte of a multi-byte UTF-8 sequence, the ranges its trail
    bytes must lie in; [None] for a byte that cannot start a sequence. *)
Definition trail (b : N) : option (list (N * N)) :=
  if (b <? 0xC2)%N then None
  else if (b <? 0xE0)%N then Some [cont]
  else if (b =? 0xE0)%N then Some [(0xA0, 0xBF)%N; cont]
  else if (b =? 0xED)%N then Some [(0x80, 0x9F)%N; cont]
  else if (b <? 0xF0)%N then Some [cont; cont]
  else if (b =? 0xF0)%N then Some [(0x90, 0xBF)%N; cont; cont]
  else if (b =? 0xF4)%N then Some [(0x80, 0x8F)%N; cont; cont]
  else if (b <? 0xF4)%N then Some [cont; cont; cont]
  else None.

(** The UTF-8 decoder.  [pend] holds, last byte first, the bytes of the
    sequence being read and [need] the ranges of the bytes still to come.
    A byte that does not continue the sequence closes a rejected run made of
    the bytes read so far and is then looked at afresh. *)
Fixpoint utf8_scan (pend : list byte) (need : list (N * N))
         (data : list byte) : list piece :=
  match data with
  | [] =>
      match pend with
      | [] => []
      | _ :: _ => [Bad (rev pend) "unexpected end of data"]
      end
  | b :: rest =>
      let afresh :=
        if (code b <? 0x80)%N then
          Text (string_of_list_byte [b]) :: utf8_scan [] [] rest
        else
          match trail (code b) with
          | Some need0 => utf8_scan [b] need0 rest
          | None => Bad [b] "invalid start byte" :: utf8_scan [] [] rest
          end in
      match need with
      | [] => afresh
      | r :: need' =>
          if within r (code b) then
            match need' with
            | [] => Text (string_of_list_byte (rev (b :: pend)))
                      :: utf8_scan [] [] rest
            | _ :: _ => utf8_scan (b :: pend) need' rest
            end
          else Bad (rev pend) "invalid continuation byte" :: afresh
      end
  end.

(** The two-byte tables of the Japanese codecs: [cp932ext] is indexed by the
    two bytes as read, [jisx0208] by row and cell. *)
Record jis_tables : Type :=
  { cp932ext : N -> N -> option N;
    jisx0208 : N -> N -> option N }.

(** Rows 4 and 5 of JIS X 0208 (hiragana U+3041.., katakana U+30A1..); no
    other row is filled in. *)
Definition kana_tables : jis_tables :=
  {| cp932ext := fun _ _ => None;
     jisx0208 := fun c1 c2 =>
       if (c1 =? 0x24)%N && within (0x21, 0x73)%N c2
       then Some (0x3041 + (c2 - 0x21))%N
       else if (c1 =? 0x25)%N && within (0x21, 0x76)%N c2
       then Some (0x30A1 + (c2 - 0x21))%N
       else None |}.

(** A Shift_JIS lead byte. *)
Definition sjis_lead (c : N) : bool :=
  within (0x81, 0x9F)%N c || within (0xE0, 0xEA)%N c.

(** From the two bytes of a Shift_JIS pair to the row and cell of
    JIS X 0208; [None] when the second byte is out of range. *)
Definition sjis_to_jis (c c2 : N) : option (N * N) :=
  if (c2 <? 0x40)%N || ((0x7E <? c2)%N && (c2 <? 0x80)%N) || (0xFC <? c2)%N
  then None
  else
    let c1 := (if (c <? 0xE0)%N then c - 0x81 else c - 0xC1)%N in
    let d := (if (c2 <? 0x80)%N then c2 - 0x40 else c2 - 0x41)%N in
    Some ((2 * c1 + (if (d <? 0x5E)%N then 0 else 1) + 0x21)%N,
          ((if (d <? 0x5E)%N then d else d - 0x5E) + 0x21)%N).

(** The two-byte step of the CP932 decoder. *)
Definition cp932_pair (t : jis_tables) (c c2 : N) : option N :=
  match cp932ext t c c2 with
  | Some u => Some u
  | None =>
      if sjis_lead c then
        match sjis_to_jis c c2 with
        | Some (r, l) => jisx0208 t r l
        | None => None
        end
      else if within (0xF0, 0xF9)%N c then
        if within (0x40, 0x7E)%N c2 || within (0x80, 0xFC)%N c2
        then Some (0xE000 + 188 * (c - 0xF0)
                   + (if (c2 <? 0x80)%N then c2 - 0x40 else c2 - 0x41))%N
        else None
      else None
  end.

(** The one-byte step of the CP932 decoder; [None] asks for a second byte. *)
Definition cp932_single (c : N) : option N :=
  if (c <=? 0x80)%N then Some c
  else if within (0xA0, 0xDF)%N c then
    Some (if (c =? 0xA0)%N then 0xF8F0 else 0xFEC0 + c)%N
  else if (0xFD <=? c)%N then Some (0xF8F1 - 0xFD + c)%N
  else None.

(** The CP932 decoder; [lead] is the first byte of a pair whose second byte
    has not been read.  A pair that decodes to nothing rejects its first
    byte only. *)
Fixpoint cp932_scan (t : jis_tables) (lead : option byte)
         (data : list byte) : list piece :=
  match data with
  | [] =>
      match lead with
      | None => []
      | Some l => [Bad [l] "incomplete multibyte sequence"]
      end
  | b :: rest =>
      let afresh :=
        match cp932_single (code b) with
        | Some u => Text (utf8_encode u) :: cp932_scan t None rest
        | None => cp932_scan t (Some b) rest
        end in
      match lead with
      | None => afresh
      | Some l =>
          match cp932_pair t (code l) (code b) with
          | Some u => Text (utf8_encode u) :: cp932_scan t None rest
          | None => Bad [l] "illegal multibyte sequence" :: afresh
          end
      end
  end.

(** The two-byte step of the Shift_JIS decoder. *)
Definition sjis_pair (t : jis_tables) (c c2 : N) : option N :=
  match sjis_to_jis c c2 with
  | Some (r, l) =>
      if (r =? 0x21)%N && (l =? 0x40)%N then Some 0xFF3C%N
      else jisx0208 t r l
  | None => None
  end.

(** The Shift_JIS decoder. *)
Fixpoint sjis_scan (t : jis_tables) (lead : option byte)
         (data : list byte) : list piece :=
  match data with
  | [] =>
      match lead with
      | None => []
      | Some l => [Bad [l] "incomplete multibyte sequence"]
      end
  | b :: rest =>
      let c := code b in
      let afresh :=
        if (c <? 0x80)%N then Text (utf8_encode c) :: sjis_scan t None rest
        else if within (0xA1, 0xDF)%N c
        then Text (utf8_encode (0xFEC0 + c)) :: sjis_scan t None rest
        else if sjis_lead c then sjis_scan t (Some b) rest
        else Bad [b] "illegal multibyte sequence" :: sjis_scan t None rest in
      match lead with
      | None => afresh
      | Some l =>
          match sjis_pair t (code l) c with
          | Some u => Text (utf8_encode u) :: sjis_scan t None rest
          | None => Bad [l] "illegal multibyte sequence" :: afresh
          end
      end
  end.

(** What the [errors] argument makes of the pieces: [Strict] raises at the
    first rejected run, [Ignore] leaves the run out, [Replace] puts U+FFFD
    in its place.  The message of the exception is the reason alone. *)
Fixpoint assemble (e : errors) (ps : list piece) : outcome string :=
  match ps with
  | [] => Ret ""
  | Text s :: ps' => r <- assemble e ps' ;; Ret (s ++ r)
  | Bad _ reason :: ps' =>
      match e with
      | Strict => Raise (MkExn UnicodeDecodeError reason)
      | Ignore => assemble e ps'
      | Replace => r <- assemble e ps' ;; Ret (REPLACEMENT ++ r)
      end
  end.

(** [data.decode(encoding, errors)] for the encodings the loader names. *)
Definition decode (t : jis_tables) (encoding : string) (e : errors)
           (data : list byte) : outcome string :=
  if String.eqb encoding "utf-8" then assemble e (utf8_scan [] [] data)
  else if String.eqb encoding "cp932" then assemble e (cp932_scan t None data)
  else if String.eqb encoding "shift_jis"
  then assemble e (sjis_scan t None data)
  else Raise (MkExn (OtherError "LookupError")
                    ("unknown encoding: " ++ encoding)).

End Codecs.

(** ** Library functions on [str] and paths used by the loader *)

Module PyStr.

Definition rev_string (s : string) : string :=
  string_of_list_ascii (rev (list_ascii_of_string s)).

(** [s.split(sep)] for a one-character separator. *)
Fixpoint split (sep : ascii) (s : string) : list string :=
  match s with
  | EmptyString => [""]
  | String c s' =>
      if Ascii.eqb c sep then "" :: split sep s'
      else match split sep s' with
           | [] => [String c ""]
           | w :: ws => String c w :: ws
           end
  end.

(** [s] without the prefix [p], when it has it. *)
Fixpoint drop_prefix (p s : string) : option string :=
  match p, s with
  | EmptyString, _ => Some s
  | String a p', String b s' =>
      if Ascii.eqb a b then drop_prefix p' s' else None
  | String _ _, EmptyString => None
  end.

(** The characters [str.strip] removes: those for which [str.isspace]
    holds. *)
Definition WHITESPACE : list N :=
  [0x09; 0x0A; 0x0B; 0x0C; 0x0D; 0x1C; 0x1D; 0x1E; 0x1F; 0x20; 0x85; 0xA0;
   0x1680; 0x2000; 0x2001; 0x2002; 0x2003; 0x2004; 0x2005; 0x2006; 0x2007;
   0x2008; 0x2009; 0x200A; 0x2028; 0x2029; 0x202F; 0x205F; 0x3000]%N.

Fixpoint drop_any (ps : list string) (s : string) : option string :=
  match ps with
  | [] => None
  | p :: ps' =>
      match drop_prefix p s with
      | Some s' => Some s'
      | None => drop_any ps' s
      end
  end.

Fixpoint lstrip_with (ps : list string) (n : nat) (s : string) : string :=
  match n with
  | O => s
  | S n' =>
      match drop_any ps s with
      | Some s' => lstrip_with ps n' s'
      | None => s
      end
  end.

Definition lstrip (s : string) : string :=
  lstrip_with (map Codecs.utf8_encode WHITESPACE) (String.length s) s.

Definition rstrip (s : string) : string :=
  rev_string
    (lstrip_with (map (fun c => rev_string (Codecs.utf8_encode c)) WHITESPACE)
                 (String.length s) (rev_string s)).

(** [s.strip()]. *)
Definition strip (s : string) : string := rstrip (lstrip s).

Definition lower_ascii (c : ascii) : ascii :=
  let n := N_of_ascii c in
  if (65 <=? n)%N && (n <=? 90)%N then ascii_of_N (n + 32) else c.

(** [s.lower()] on the letters A to Z.  Python also folds letters outside
    ASCII; none of them folds to a letter of [.pdf], [.txt], [.md] or
    [.csv], so the choice of a loader is the same. *)
Fixpoint lower (s : string) : string :=
  match s with
  | EmptyString => EmptyString
  | String c s' => String (lower_ascii c) (lower s')
  end.

(** [s.rfind(c)]. *)
Fixpoint rfind (c : ascii) (s : string) : option nat :=
  match s with
  | EmptyString => None
  | String a s' =>
      match rfind c s' with
      | Some i => Some (S i)
      | None => if Ascii.eqb a c then Some O else None
      end
  end.

(** [Path(p).name] on a POSIX system: the last component that is neither
    empty nor a single dot. *)
Definition path_name (p : string) : string :=
  last (filter (fun c => negb (String.eqb c "" || String.eqb c "."))
               (split "/"%char p)) "".

(** [Path(p).suffix]: the name from its last dot on, when that dot is
    neither the first nor the last character of the name. *)
Definition suffix (p : string) : string :=
  let name := path_name p in
  match rfind "."%char name with
  | Some i =>
      if (0 <? i)%nat && (i <? String.length name - 1)%nat
      then substring i (String.length name - i) name
      else ""
  | None => ""
  end.

(** [str(n)] for an [int]. *)
Definition str_of_int (n : Z) : string :=
  DecimalString.NilZero.string_of_int (Z.to_int n).

End PyStr.

(** ** [src/document_loader.py] *)

Module Loader.

(** [requests.Response], the fields the loader and [raise_for_status]
    read. *)
Record Response : Type :=
  { status_code : Z;
    reason : string;
    url : string;
    text : string }.

(** What the loader calls outside the repository.
    - [bytes_decode enc errors data] is [data.decode(enc, errors)];
    - [open_read path] is [open(path, "rb")] followed by [f.read()];
    - [requests_get url headers timeout] is [requests.get];
    - [soup_text html tags separator strip] is
      [BeautifulSoup(html, "html.parser")], [decompose] on every element
      named in [tags], then [get_text(separator, strip)];
    - [pdf_pages data] is [PdfReader(io.BytesIO(data)).pages], each page
      given by what its [extract_text()] does;
    - [read_csv text] is [pd.read_csv(io.StringIO(text))] and
      [to_markdown df] is [df.to_markdown(index=False)]. *)
Class Extern : Type :=
  { bytes_decode : string -> Codecs.errors -> list byte -> outcome string;
    open_read : string -> outcome (list byte);
    requests_get : string -> list (string * string) -> Z -> outcome Response;
    soup_text : string -> list string -> string -> bool -> outcome string;
    pdf_pages : list byte -> outcome (list (outcome string));
    DataFrame : Type;
    read_csv : string -> outcome DataFrame;
    to_markdown : DataFrame -> outcome string }.

(** [Response.raise_for_status] of [requests]: an [HTTPError] for a status
    from 400 to 599, nothing otherwise. *)
Definition raise_for_status (r : Response) : outcome unit :=
  let http_error_msg :=
    if (400 <=? status_code r)%Z && (status_code r <? 500)%Z then
      PyStr.str_of_int (status_code r) ++ " Client Error: " ++ reason r
      ++ " for url: " ++ url r
    else if (500 <=? status_code r)%Z && (status_code r <? 600)%Z then
      PyStr.str_of_int (status_code r) ++ " Server Error: " ++ reason r
      ++ " for url: " ++ url r
    else "" in
  if String.eqb http_error_msg "" then Ret tt
  else Raise (MkExn HTTPError http_error_msg).

(** The first argument of [load]: a [str], a [bytes], or an object of
    another type, given by [str(type(source))]. *)
Inductive source : Type :=
| Str (s : string)
| Bytes (data : list byte)
| Other (type_repr : string).

Definition UNSUPPORTED_SOURCE : string := "Unsupported source type: ".

Definition UNSUPPORTED_FILE : string := "Unsupported file type: ".

Definition USER_AGENT : string :=
  "Mozilla/5.0 (Windows NT 10.0; Win64; x64) AppleWebKit/537.36".

Definition REMOVED_TAGS : list string :=
  ["script"; "style"; "nav"; "footer"; "header"; "aside"].

Definition ENCODINGS : list string := ["utf-8"; "cp932"; "shift_jis"].

Section WithExtern.

Context {ext : Extern}.

(** The [for page in reader.pages] loop of [_load_pdf]. *)
Fixpoint pdf_texts (pages : list (outcome string)) (texts : list string)
  : outcome (list string) :=
  match pages with
  | [] => Ret texts
  | page :: rest =>
      t <- page ;;
      pdf_texts rest (if String.eqb t "" then texts else (texts ++ [t])%list)
  end.

Definition _load_pdf (data : list byte) : outcome string :=
  pages <- pdf_pages data ;;
  texts <- pdf_texts pages [] ;;
  Ret (join LF texts).

(** The [for encoding in ...] loop of [_load_text], with the statement
    after the loop when the list is used up. *)
Fixpoint decode_first (encodings : list string) (data : list byte)
  : outcome string :=
  match encodings with
  | [] => bytes_decode "utf-8" Codecs.Ignore data
  | encoding :: rest =>
      try_except (bytes_decode encoding Codecs.Strict data)
                 UnicodeDecodeError
                 (fun _ => decode_first rest data)
  end.

Definition _load_text (data : list byte) : outcome string :=
  decode_first ENCODINGS data.

Definition _load_csv (data : list byte) : outcome string :=
  t <- _load_text data ;;
  df <- read_csv t ;;
  to_markdown df.

(** The extractor a suffix selects. *)
Inductive loader : Type := PdfLoader | TextLoader | CsvLoader.

Definition run_loader (l : loader) (data : list byte) : outcome string :=
  match l with
  | PdfLoader => _load_pdf data
  | TextLoader => _load_text data
  | CsvLoader => _load_csv data
  end.

(** The [loaders] dict of [_load_bytes]. *)
Definition loaders : list (string * loader) :=
  [(".pdf", PdfLoader); (".txt", TextLoader); (".md", TextLoader);
   (".csv", CsvLoader)].

(** [loaders.get(ext)]. *)
Fixpoint get (k : string) (d : list (string * loader)) : option loader :=
  match d with
  | [] => None
  | (k', v) :: d' => if String.eqb k' k then Some v else get k d'
  end.

Definition _load_bytes (data : list byte) (ext_ : string) : outcome string :=
  match get ext_ loaders with
  | Some l => run_loader l data
  | None => Raise (MkExn ValueError (UNSUPPORTED_FILE ++ ext_))
  end.

Definition _load_file (path ext_ : string) : outcome string :=
  data <- open_read path ;;
  _load_bytes data ext_.

Definition _load_web (url_ : string) : outcome string :=
  let headers := [("User-Agent", USER_AGENT)] in
  response <- requests_get url_ headers 10 ;;
  _ <- raise_for_status response ;;
  t <- soup_text (text response) REMOVED_TAGS LF true ;;
  let lines :=
    map PyStr.strip
        (filter (fun line => negb (String.eqb (PyStr.strip line) ""))
                (PyStr.split "010"%char t)) in
  Ret (join LF lines).

Definition is_url (s : string) : bool :=
  startswith s "http://" || startswith s "https://".

(** [load]: the four tests of the source, in its order. *)
Definition load (src : source) (filename : string) : outcome string :=
  match src with
  | Str s =>
      if is_url s then _load_web s
      else _load_file s (PyStr.lower (PyStr.suffix s))
  | Bytes data => _load_bytes data (PyStr.lower (PyStr.suffix filename))
  | Other type_repr => Raise (MkExn ValueError (UNSUPPORTED_SOURCE ++ type_repr))
  end.

End WithExtern.

(** The error names of the specification, read off the exception. *)
Definition is_UnsupportedSourceType (e : exn) : bool :=
  exn_class_eqb (exn_cls e) ValueError
  && String.prefix UNSUPPORTED_SOURCE (exn_str e).

Definition is_UnsupportedFormat (e : exn) : bool :=
  exn_class_eqb (exn_cls e) ValueError
  && String.prefix UNSUPPORTED_FILE (exn_str e).

Definition is_FetchError (e : exn) : bool := isinstance e RequestException.

End Loader.

(** ** The words of the specification for the chat session *)

Module ChatSpec.
Import Chat.

(** The context block in the words of the specification: for every
    document in order, a header line with the key, then the content, with
    a blank line between two sections. *)
Definition header (key : string) : string := "=== " ++ key ++ " ===" ++ LF.

Fixpoint context_block (d : dict) : string :=
  match d with
  | [] => ""
  | (key, content) :: rest =>
      match rest with
      | [] => header key ++ content
      | _ :: _ => header key ++ content ++ (LF ++ LF) ++ context_block rest
      end
  end.

(** [occurs_in_order parts s]: the parts occur in [s] one after the other,
    without overlap. *)
Fixpoint occurs_in_order (parts : list string) (s : string) : Prop :=
  match parts with
  | [] => True
  | p :: ps =>
      exists before after, s = before ++ p ++ after /\ occurs_in_order ps after
  end.

(** The header and the content of every document, in order. *)
Definition document_parts (d : dict) : list string :=
  flat_map (fun item => [header (fst item); snd item]) d.

(** [d[k]], when the key is present. *)
Fixpoint getitem (k : string) (d : dict) : option string :=
  match d with
  | [] => None
  | (k', v) :: d' => if String.eqb k' k then Some v else getitem k d'
  end.

End ChatSpec.

(** ** The words of the specification for the loader *)

Module LoaderSpec.
Import Loader.

Section WithExtern.

Context {ext : Extern}.

(** The text under the first encoding of the list whose strict decoding
    succeeds, if there is one. *)
Fixpoint first_strict (encodings : list string) (data : list byte)
  : option string :=
  match encodings with
  | [] => None
  | encoding :: rest =>
      match bytes_decode encoding Codecs.Strict data with
      | Ret t => Some t
      | Raise _ => first_strict rest data
      end
  end.

(** What the loader relies on from [bytes.decode]: a strict decoding that
    fails raises [UnicodeDecodeError], and decoding UTF-8 with
    [errors="ignore"] returns. *)
Definition strict_raises_decode_error : Prop :=
  forall encoding data e,
    In encoding ENCODINGS ->
    bytes_decode encoding Codecs.Strict data = Raise e ->
    isinstance e UnicodeDecodeError = true.

Definition ignore_returns : Prop :=
  forall data, exists t, bytes_decode "utf-8" Codecs.Ignore data = Ret t.

End WithExtern.

(** The four supported suffixes. *)
Definition SUPPORTED : list string := [".pdf"; ".txt"; ".md"; ".csv"].

(** A suffix matches a supported one when the two are equal up to the case
    of their letters. *)
Definition matches (sfx supported : string) : Prop :=
  PyStr.lower sfx = PyStr.lower supported.

End LoaderSpec.

(** ** Stub collaborators, for running the code on concrete inputs *)

Module Fixtures.

(** A model client that answers with the prompt it was given. *)
Definition echo_model : Chat.GenerativeModel :=
  {| Chat.generate_content := fun prompt => Ret {| Chat.text := Ret prompt |} |}.

(** A model client whose call raises [e]. *)
Definition failing_model (e : exn) : Chat.GenerativeModel :=
  {| Chat.generate_content := fun _ => Raise e |}.

(** A model client whose response has no readable text. *)
Definition blocked_model (e : exn) : Chat.GenerativeModel :=
  {| Chat.generate_content := fun _ => Ret {| Chat.text := Raise e |} |}.

Definition session (m : Chat.GenerativeModel) (d : Chat.dict) : Chat.GeminiChat :=
  {| Chat.model := m; Chat.documents := d |}.

(** The files of the stub file system. *)
Definition files : list (string * list byte) :=
  [("notes.txt", list_byte_of_string "hello");
   ("data.bin", [x00; x01])].

Fixpoint read_file (path : string) (fs : list (string * list byte))
  : outcome (list byte) :=
  match fs with
  | [] => Raise (MkExn FileNotFoundError
                       ("[Errno 2] No such file or directory: '" ++ path ++ "'"))
  | (p, data) :: fs' => if String.eqb p path then Ret data else read_file path fs'
  end.

Definition NOT_MODIFIED : Loader.Response :=
  {| Loader.status_code := 304;
     Loader.reason := "Not Modified";
     Loader.url := "https://example.com/cached";
     Loader.text := "" |}.

Definition NOT_FOUND : Loader.Response :=
  {| Loader.status_code := 404;
     Loader.reason := "Not Found";
     Loader.url := "https://example.com/missing";
     Loader.text := "<p>not here</p>" |}.

(** The stub web: two pages, and no route to any other host. *)
Definition fetch (url : string) : outcome Loader.Response :=
  if String.eqb url "https://example.com/cached" then Ret NOT_MODIFIED
  else if String.eqb url "https://example.com/missing" then Ret NOT_FOUND
  else Raise (MkExn ConnectionError "Max retries exceeded").

(** The stub collaborators of the loader: the codecs of [Codecs] with the
    kana tables, the stub file system and web, an HTML parser that is
    only given pages without markup and returns them as they are, a PDF
    reader that rejects every input, and a table library that passes the
    text through. *)
Definition stub : Loader.Extern :=
  {| Loader.bytes_decode := Codecs.decode Codecs.kana_tables;
     Loader.open_read := fun path => read_file path files;
     Loader.requests_get := fun url _ _ => fetch url;
     Loader.soup_text := fun html _ _ _ => Ret html;
     Loader.pdf_pages := fun _ =>
       Raise (MkExn (OtherError "PdfReadError") "EOF marker not found");
     Loader.DataFrame := string;
     Loader.read_csv := fun t => Ret t;
     Loader.to_markdown := fun df => Ret df |}.

End Fixtures.

(** ** Sequences of calls on a chat session *)

Module ChatOps.
Import Chat.

(** [GeminiChat(api_key, model_name)]: [m] is the handle that
    [genai.GenerativeModel(model_name)] gives once the key is configured;
    the dict of documents starts empty. *)
Definition new_chat (m : GenerativeModel) : GeminiChat :=
  {| model := m; documents := [] |}.

(** A call of one of the three methods that change the documents. *)
Inductive call : Type :=
| AddDocument (filename content : string)
| RemoveDocument (filename : string)
| ClearDocuments.

Definition step (self : GeminiChat) (c : call) : outcome GeminiChat :=
  match c with
  | AddDocument filename content => Ret (add_document filename content self)
  | RemoveDocument filename => remove_document filename self
  | ClearDocuments => Ret (clear_documents self)
  end.

(** The calls one after the other, stopping at the first that raises. *)
Fixpoint run (calls : list call) (self : GeminiChat) : outcome GeminiChat :=
  match calls with
  | [] => Ret self
  | c :: rest => self' <- step self c ;; run rest self'
  end.

End ChatOps.

(** ** [app.py]: the presets and the upload loop *)

Module App.
Import Chat.

(** [DOCS_DIR]: whether it exists, and the paths [iterdir()] yields. *)
Record Dir : Type :=
  { exists_ : bool;
    iterdir : outcome (list string) }.

(** A file of the upload widget: its [name] and what [read()] returns. *)
Record UploadedFile : Type :=
  { name : string;
    read : list byte }.

(** What the sidebar shows for an upload: [st.success] or [st.error]. *)
Inductive notice : Type :=
| success (body : string)
| error (body : string).

Definition supported_extensions : list string :=
  [".pdf"; ".txt"; ".md"; ".csv"].

(** [x in xs] for strings. *)
Fixpoint mem (x : string) (xs : list string) : bool :=
  match xs with
  | [] => false
  | y :: ys => String.eqb y x || mem x ys
  end.

Definition PRESET : string := "[preset] ".

Definition OK_MARK : string := "✅ ".

Definition FAIL_MARK : string := "❌ ".

Section WithExtern.

Context {ext : Loader.Extern}.

(** The body of the [for file_path in DOCS_DIR.iterdir()] loop. *)
Definition load_preset (chat : GeminiChat) (file_path : string)
  : outcome GeminiChat :=
  if mem (PyStr.lower (PyStr.suffix file_path)) supported_extensions then
    if negb (mem (PyStr.path_name file_path) (get_document_list chat)) then
      try_except
        (data <- Loader.open_read file_path ;;
         content <- Loader.load (Loader.Bytes data) (PyStr.path_name file_path) ;;
         Ret (add_document (PRESET ++ PyStr.path_name file_path) content chat))
        Exception
        (fun _ => Ret chat)
    else Ret chat
  else Ret chat.

Fixpoint load_presets (paths : list string) (chat : GeminiChat)
  : outcome GeminiChat :=
  match paths with
  | [] => Ret chat
  | file_path :: rest =>
      chat' <- load_preset chat file_path ;;
      load_presets rest chat'
  end.

Definition load_preset_documents (docs_dir : Dir) (chat : GeminiChat)
  : outcome GeminiChat :=
  if negb (exists_ docs_dir) then Ret chat
  else
    paths <- iterdir docs_dir ;;
    load_presets paths chat.

(** The body of the [for file in uploaded_files] loop of [main]: the
    session and the notices shown so far, before and after. *)
Definition upload (state : GeminiChat * list notice) (file : UploadedFile)
  : outcome (GeminiChat * list notice) :=
  let (chat, shown) := state in
  if negb (mem (name file) (get_document_list chat)) then
    try_except
      (content <- Loader.load (Loader.Bytes (read file)) (name file) ;;
       Ret (add_document (name file) content chat,
            (shown ++ [success (OK_MARK ++ name file)])%list))
      Exception
      (fun e => Ret (chat,
                     (shown ++ [error (FAIL_MARK ++ name file ++ ": "
                                       ++ exn_str e)])%list))
  else Ret (chat, shown).

Fixpoint uploads (files : list UploadedFile) (state : GeminiChat * list notice)
  : outcome (GeminiChat * list notice) :=
  match files with
  | [] => Ret state
  | file :: rest =>
      state' <- upload state file ;;
      uploads rest state'
  end.

End WithExtern.

End App.

(** ** Words used in the statements about the loader and the app *)

Module ExtraSpec.

(** The characters of a string. *)
Definition chars (s : string) : list ascii := list_ascii_of_string s.

Definition nonblank (line : string) : bool :=
  negb (String.eqb (PyStr.strip line) "").

Definition nonempty (t : string) : bool := negb (String.eqb t "").

(** [xs] is the beginning of [ys]. *)
Definition is_prefix (xs ys : list string) : Prop :=
  exists tail, ys = (xs ++ tail)%list.

(** A call that, when it raises, raises an instance of [Exception]. *)
Definition ordinary {A : Type} (m : outcome A) : Prop :=
  forall e, m = Raise e -> isinstance e Exception = true.

(** What the preset loop tries on one path: open, read and load. *)
Definition preset_attempt {ext : Loader.Extern} (file_path : string)
  : outcome string :=
  data <- Loader.open_read file_path ;;
  Loader.load (Loader.Bytes data) (PyStr.path_name file_path).

End ExtraSpec.

(** ** A second set of stub collaborators: a page and a PDF that load *)

Module MoreFixtures.

Definition PAGE : Loader.Response :=
  {| Loader.status_code := 200;
     Loader.reason := "OK";
     Loader.url := "https://example.com/page";
     Loader.text := "  Title  " ++ LF ++ LF ++ "   " ++ LF ++ " body text" |}.

(** A PDF reader that finds three pages, the second without text. *)
Definition THREE_PAGES : list (outcome string) :=
  [Ret "page one"; Ret ""; Ret "page three"].

Definition desk : Loader.Extern :=
  {| Loader.bytes_decode := Codecs.decode Codecs.kana_tables;
     Loader.open_read := fun path => Fixtures.read_file path Fixtures.files;
     Loader.requests_get := fun url _ _ =>
       if String.eqb url "https://example.com/page" then Ret PAGE
       else Raise (MkExn ConnectionError "Max retries exceeded");
     Loader.soup_text := fun html _ _ _ => Ret html;
     Loader.pdf_pages := fun _ => Ret THREE_PAGES;
     Loader.DataFrame := string;
     Loader.read_csv := fun t => Ret t;
     Loader.to_markdown := fun df => Ret df |}.

End MoreFixtures.

(** * Proofs *)

(** ** The library models on concrete inputs *)

Module Examples.
Import Codecs.

Example utf8_strict_text :
  decode kana_tables "utf-8" Strict (list_byte_of_string "héllo あ")
  = Ret "héllo あ".
Proof. vm_compute. reflexivity. Qed.

Example utf8_surrogate_rejected :
  decode kana_tables "utf-8" Strict [xed; xa0; x80]
  = Raise (MkExn UnicodeDecodeError "invalid continuation byte").
Proof. vm_compute. reflexivity. Qed.

Example utf8_ignore_drops :
  decode kana_tables "utf-8" Ignore [x41; x81; xe3; x81; x42] = Ret "AB".
Proof. vm_compute. reflexivity. Qed.

Example utf8_replace_substitutes :
  decode kana_tables "utf-8" Replace [x41; x81; xe3; x81; x42]
  = Ret ("A" ++ REPLACEMENT ++ REPLACEMENT ++ "B").
Proof. vm_compute. reflexivity. Qed.

Example cp932_kana :
  decode kana_tables "cp932" Strict [x82; xa0; x41; xb1] = Ret "あAｱ".
Proof. vm_compute. reflexivity. Qed.

Example shift_jis_kana :
  decode kana_tables "shift_jis" Strict [x83; x41; x41] = Ret "アA".
Proof. vm_compute. reflexivity. Qed.

Example cp932_lone_lead :
  decode kana_tables "cp932" Strict [x81]
  = Raise (MkExn UnicodeDecodeError "incomplete multibyte sequence").
Proof. vm_compute. reflexivity. Qed.

Example suffix_of_paths :
  map PyStr.suffix
      ["a/b.TXT"; "rep.tar.gz"; ".bashrc"; "a."; "dir.d/x"; "x.pdf/"; ""]
  = [".TXT"; ".gz"; ""; ""; ""; ".pdf"; ""].
Proof. vm_compute. reflexivity. Qed.

Example strip_of_lines :
  map PyStr.strip ["  a b  "; "　あ　"; ""; "   "; "x"]
  = ["a b"; "あ"; ""; ""; "x"].
Proof. vm_compute. reflexivity. Qed.

Example split_of_lines :
  PyStr.split "010"%char ("a" ++ LF ++ LF ++ "b" ++ LF) = ["a"; ""; "b"; ""].
Proof. vm_compute. reflexivity. Qed.

Example load_text_file :
  Loader.load (ext := Fixtures.stub)
              (Loader.Bytes (list_byte_of_string "hello")) "greeting.txt"
  = Ret "hello".
Proof. vm_compute. reflexivity. Qed.

End Examples.

(** ** Facts about strings and exceptions *)

Lemma append_assoc (a b c : string) : (a ++ b) ++ c = a ++ (b ++ c).
Proof.
  induction a as [|x a IH]; simpl; [reflexivity|].
  now rewrite IH.
Qed.

Lemma append_empty_r (a : string) : a ++ "" = a.
Proof.
  induction a as [|x a IH]; simpl; [reflexivity|].
  now rewrite IH.
Qed.

Lemma append_eq_empty (a b : string) : a ++ b = "" -> a = "" /\ b = "".
Proof.
  destruct a; simpl; intros H; [now split | discriminate].
Qed.

Lemma exn_class_eqb_refl (c : exn_class) : exn_class_eqb c c = true.
Proof.
  destruct c; simpl; try reflexivity; apply String.eqb_refl.
Qed.

(** What [try ... except cls] does with a raised exception: the handler
    runs for an instance of the class, any other exception goes on. *)
Lemma try_except_caught (A : Type) (e : exn) (cls : exn_class)
      (handler : exn -> outcome A) :
  isinstance e cls = true ->
  try_except (Raise e) cls handler = handler e.
Proof. intros H. simpl. now rewrite H. Qed.


(** The classes that [except Exception] lets through. *)
Lemma not_caught_by_Exception :
  isinstance (MkExn KeyboardInterrupt "") Exception = false
  /\ isinstance (MkExn SystemExit "") Exception = false
  /\ isinstance (MkExn GeneratorExit "") Exception = false
  /\ (forall name msg, isinstance (MkExn (OtherBase name) msg) Exception = false).
Proof. repeat split. Qed.

(** ** The document collection *)

Module ChatFacts.
Import Chat ChatSpec.

Lemma contains_In (k : string) (d : dict) :
  contains k d = true <-> In k (keys d).
Proof.
  induction d as [|[k' v] d IH]; simpl.
  - split; [discriminate | tauto].
  - rewrite orb_true_iff, IH, String.eqb_eq. tauto.
Qed.

Lemma contains_false_not_In (k : string) (d : dict) :
  contains k d = false <-> ~ In k (keys d).
Proof.
  rewrite <- contains_In. destruct (contains k d); split; congruence.
Qed.

Lemma keys_setitem_present (k v : string) (d : dict) :
  contains k d = true -> keys (setitem k v d) = keys d.
Proof.
  induction d as [|[k' v'] d IH]; simpl; [discriminate|].
  destruct (String.eqb k' k) eqn:E; simpl; [reflexivity|].
  intros H. now rewrite IH.
Qed.

Lemma setitem_absent (k v : string) (d : dict) :
  contains k d = false -> setitem k v d = (d ++ [(k, v)])%list.
Proof.
  induction d as [|[k' v'] d IH]; simpl; [reflexivity|].
  destruct (String.eqb k' k); simpl; [discriminate|].
  intros H. now rewrite IH.
Qed.

Lemma contains_setitem (k v : string) (d : dict) :
  contains k (setitem k v d) = true.
Proof.
  induction d as [|[k' v'] d IH]; simpl.
  - now rewrite String.eqb_refl.
  - destruct (String.eqb k' k) eqn:E; simpl; rewrite E; simpl; auto.
Qed.

Lemma delitem_app_absent (k v : string) (d : dict) :
  contains k d = false -> delitem k (d ++ [(k, v)])%list = d.
Proof.
  induction d as [|[k' v'] d IH]; simpl.
  - now rewrite String.eqb_refl.
  - destruct (String.eqb k' k); simpl; [discriminate|].
    intros H. now rewrite IH.
Qed.

Lemma getitem_setitem (k v : string) (d : dict) :
  getitem k (setitem k v d) = Some v.
Proof.
  induction d as [|[k' v'] d IH]; simpl.
  - now rewrite String.eqb_refl.
  - destruct (String.eqb k' k) eqn:E; simpl; rewrite E; auto.
Qed.

(** With one entry per key, [d[k] = v] changes the entry of [k] and no
    other. *)
Lemma setitem_present_map (k v : string) (d : dict) :
  wf d -> contains k d = true ->
  setitem k v d
  = map (fun item => if String.eqb (fst item) k then (fst item, v) else item) d.
Proof.
  unfold wf.
  induction d as [|[k' v'] d IH]; simpl; [discriminate|].
  intros Hnd Hc. inversion Hnd as [|? ? Hnotin Hnd']; subst.
  destruct (String.eqb k' k) eqn:E; simpl.
  - apply String.eqb_eq in E; subst k'.
    f_equal. clear IH Hc Hnd Hnd'.
    induction d as [|[k2 v2] d IH]; simpl; [reflexivity|].
    simpl in Hnotin.
    destruct (String.eqb k2 k) eqn:E2.
    + apply String.eqb_eq in E2. tauto.
    + f_equal. apply IH. tauto.
  - f_equal. now apply IH.
Qed.

(** The invariant holds at construction and every operation keeps it. *)
Lemma wf_empty : wf [].
Proof. constructor. Qed.

Lemma wf_setitem (k v : string) (d : dict) : wf d -> wf (setitem k v d).
Proof.
  unfold wf. intros Hnd.
  destruct (contains k d) eqn:E.
  - now rewrite keys_setitem_present.
  - rewrite setitem_absent by assumption.
    unfold keys. rewrite map_app. simpl.
    apply NoDup_app; [assumption | repeat constructor; simpl; tauto |].
    intros x Hx [Hk|[]]; subst x.
    now apply contains_false_not_In in E.
Qed.

Lemma In_keys_delitem (x k : string) (d : dict) :
  In x (keys (delitem k d)) -> In x (keys d).
Proof.
  induction d as [|[k' v'] d IH]; simpl; [tauto|].
  destruct (String.eqb k' k); simpl; tauto.
Qed.

Lemma wf_delitem (k : string) (d : dict) : wf d -> wf (delitem k d).
Proof.
  unfold wf.
  induction d as [|[k' v'] d IH]; simpl; intros Hnd; [constructor|].
  inversion Hnd as [|? ? Hnotin Hnd']; subst.
  destruct (String.eqb k' k); [assumption|]. simpl.
  constructor; [|now apply IH].
  intros Hin. apply Hnotin. eapply In_keys_delitem; eassumption.
Qed.

Lemma set_documents_same (self : GeminiChat) :
  set_documents self (documents self) = self.
Proof. now destruct self. Qed.

(** The loop of [generate] collects one section per document, in order. *)
Lemma fold_append_sections (d : dict) (acc : list string) :
  fold_left (fun acc item => (acc ++ [section_of item])%list) d acc
  = (acc ++ map section_of d)%list.
Proof.
  revert acc. induction d as [|item d IH]; intros acc; simpl.
  - now rewrite app_nil_r.
  - rewrite IH, <- app_assoc. reflexivity.
Qed.

Lemma context_parts_map (d : dict) : context_parts d = map section_of d.
Proof. unfold context_parts, items. apply fold_append_sections. Qed.

Lemma join_sections (d : dict) :
  join (LF ++ LF) (map section_of d) = context_block d.
Proof.
  induction d as [|[k c] d IH]; [reflexivity|].
  destruct d as [|item d].
  - simpl. unfold section_of, header. simpl. now rewrite !append_assoc.
  - change (join (LF ++ LF) (map section_of ((k, c) :: item :: d)))
      with (section_of (k, c) ++ (LF ++ LF)
            ++ join (LF ++ LF) (map section_of (item :: d))).
    rewrite IH. unfold section_of, header. simpl fst. simpl snd.
    change (context_block ((k, c) :: item :: d))
      with (("=== " ++ k ++ " ===" ++ LF) ++ c ++ (LF ++ LF)
            ++ context_block (item :: d)).
    now rewrite !append_assoc.
Qed.

Lemma occurs_skip (parts : list string) (a s : string) :
  occurs_in_order parts s -> occurs_in_order parts (a ++ s).
Proof.
  destruct parts as [|p ps]; simpl; [tauto|].
  intros (before & after & -> & H).
  exists (a ++ before), after. split; [|assumption].
  now rewrite append_assoc.
Qed.

Lemma occurs_here (p : string) (ps : list string) (s : string) :
  occurs_in_order ps s -> occurs_in_order (p :: ps) (p ++ s).
Proof.
  intros H. simpl. exists "", s. split; [reflexivity | assumption].
Qed.

Lemma occurs_documents (d : dict) (ps : list string) (tail : string) :
  occurs_in_order ps tail ->
  occurs_in_order (document_parts d ++ ps) (context_block d ++ tail).
Proof.
  induction d as [|[k c] d IH]; intros H; [exact H|].
  destruct d as [|item d].
  - change (document_parts [(k, c)] ++ ps)%list with (header k :: c :: ps).
    change (context_block [(k, c)]) with (header k ++ c).
    rewrite append_assoc.
    apply occurs_here, occurs_here, H.
  - change (document_parts ((k, c) :: item :: d) ++ ps)%list
      with (header k :: c :: (document_parts (item :: d) ++ ps))%list.
    change (context_block ((k, c) :: item :: d))
      with (header k ++ c ++ (LF ++ LF) ++ context_block (item :: d)).
    rewrite !append_assoc.
    apply occurs_here, occurs_here.
    rewrite <- append_assoc.
    apply occurs_skip, IH, H.
Qed.

End ChatFacts.

(** ** The chat session *)

Module ChatProps.
Import Chat ChatSpec ChatFacts Fixtures.

Lemma generate_no_documents (self : GeminiChat) (query : string) :
  documents self = [] ->
  generate self query = (Ret NO_DOCUMENTS, []).
Proof.
  intros Hempty. unfold generate. now rewrite Hempty.
Qed.

(** C1. For every session whose document collection is empty and every
    query, [generate] returns the fixed guidance string and passes no
    prompt to the model: the list of calls to [generate_content] is
    empty. *)
Theorem generate_empty_collection (self : GeminiChat) (query : string) :
  documents self = [] ->
  generate self query = (Ret NO_DOCUMENTS, []).
Proof.
  exact (generate_no_documents self query).
Qed.

(** Witness of C1: a session without documents whose model would raise if
    it were called. *)
Lemma generate_empty_collection_witness :
  documents (session (failing_model (MkExn ConnectionError "down")) []) = []
  /\ generate (session (failing_model (MkExn ConnectionError "down")) [])
              "何が書いてありますか"
     = (Ret NO_DOCUMENTS, []).
Proof.
  split; [reflexivity|].
  apply (generate_empty_collection
           (session (failing_model (MkExn ConnectionError "down")) [])).
  reflexivity.
Defined.

(** What [generate] evaluates to when there is at least one document. *)
Lemma generate_nonempty (self : GeminiChat) (query : string) :
  documents self <> [] ->
  generate self query
  = (try_except
       (response <- generate_content (model self)
                      (build_prompt (context_block (documents self)) query) ;;
        text response)
       Exception
       (fun e => Ret (ERROR_PREFIX ++ exn_str e)),
     [build_prompt (context_block (documents self)) query]).
Proof.
  intros Hne. unfold generate.
  destruct (documents self) as [|item d] eqn:E; [congruence|].
  rewrite context_parts_map, join_sections.
  reflexivity.
Qed.

(** C2. For every session with at least one document and every query,
    exactly one prompt goes to the model.  It is the preamble, the rule
    set, the context block and the query in that order, where the context
    block holds, for every document in insertion order, a header with the
    key followed by the full content, sections being separated by a blank
    line.  Hence the preamble, the rules, every header and content in
    document order, and then the query occur in the prompt one after the
    other. *)
Theorem generate_prompt_layout (self : GeminiChat) (query : string) :
  documents self <> [] ->
  exists prompt,
    snd (generate self query) = [prompt]
    /\ prompt = PREAMBLE ++ RULES ++ DOCUMENTS_HEADING
                ++ context_block (documents self)
                ++ QUERY_HEADING ++ query ++ ANSWER_HEADING
    /\ occurs_in_order
         ([PREAMBLE; RULES] ++ document_parts (documents self) ++ [query])%list
         prompt.
Proof.
  intros Hne. rewrite (generate_nonempty self query Hne). simpl snd.
  eexists. split; [reflexivity|]. split; [reflexivity|].
  unfold build_prompt.
  change ([PREAMBLE; RULES] ++ document_parts (documents self) ++ [query])%list
    with (PREAMBLE :: RULES :: (document_parts (documents self) ++ [query]))%list.
  apply occurs_here, occurs_here, occurs_skip, occurs_documents.
  apply occurs_skip, occurs_here. exact I.
Qed.

(** Witness of C2: two documents and a model that echoes its prompt. *)
Lemma generate_prompt_layout_witness :
  exists prompt,
    snd (generate (session echo_model [("a.txt", "alpha"); ("b.md", "beta")])
                  "要約して") = [prompt]
    /\ prompt = PREAMBLE ++ RULES ++ DOCUMENTS_HEADING
                ++ context_block [("a.txt", "alpha"); ("b.md", "beta")]
                ++ QUERY_HEADING ++ "要約して" ++ ANSWER_HEADING
    /\ occurs_in_order
         [PREAMBLE; RULES; header "a.txt"; "alpha"; header "b.md"; "beta";
          "要約して"]
         prompt.
Proof.
  apply (generate_prompt_layout
           (session echo_model [("a.txt", "alpha"); ("b.md", "beta")])).
  simpl. discriminate.
Defined.




(** Counterexample to C7 as stated: the key is already present, so adding
    overwrites and removing deletes it; the snapshot loses the key. *)
Lemma add_remove_present_key_counterexample :
  get_document_list (session echo_model [("a.txt", "alpha")]) = ["a.txt"]
  /\ remove_document "a.txt"
       (add_document "a.txt" "beta" (session echo_model [("a.txt", "alpha")]))
     = Ret (session echo_model [])
  /\ get_document_list (session echo_model []) = []
  /\ ~ (forall self key content self',
           remove_document key (add_document key content self) = Ret self' ->
           get_document_list self' = get_document_list self).
Proof.
  split; [reflexivity|]. split; [reflexivity|]. split; [reflexivity|].
  intros H.
  specialize (H (session echo_model [("a.txt", "alpha")]) "a.txt" "beta"
                (session echo_model []) eq_refl).
  discriminate H.
Qed.

(** C7, amended. For every session, every key that is not in the
    collection and every content, [add_document] followed by
    [remove_document] with that key gives back the session as it was:
    the same [get_document_list] snapshot and the same documents. *)
Theorem add_remove_fresh_key (self : GeminiChat) (key content : string) :
  ~ In key (get_document_list self) ->
  exists self',
    remove_document key (add_document key content self) = Ret self'
    /\ get_document_list self' = get_document_list self
    /\ documents self' = documents self.
Proof.
  intros Hfresh. apply contains_false_not_In in Hfresh.
  exists self. split; [|split; reflexivity].
  unfold remove_document, add_document. simpl.
  rewrite contains_setitem, (setitem_absent _ _ _ Hfresh).
  rewrite (delitem_app_absent _ _ _ Hfresh).
  destruct self; reflexivity.
Qed.

(** Witness of C7, amended. *)
Lemma add_remove_fresh_key_witness :
  exists self',
    remove_document "b.md"
      (add_document "b.md" "beta" (session echo_model [("a.txt", "alpha")]))
    = Ret self'
    /\ get_document_list self' = ["a.txt"]
    /\ documents self' = [("a.txt", "alpha")].
Proof.
  apply (add_remove_fresh_key (session echo_model [("a.txt", "alpha")])
                              "b.md" "beta").
  simpl. intros [H|[]]. discriminate H.
Defined.

(** C8. For every session and every key that is not in the collection,
    [remove_document] returns without raising and leaves the session, and
    so the keys, the contents and their order, as they were. *)
Theorem remove_absent_key (self : GeminiChat) (key : string) :
  ~ In key (get_document_list self) ->
  remove_document key self = Ret self.
Proof.
  intros Habsent. apply contains_false_not_In in Habsent.
  unfold remove_document. now rewrite Habsent.
Qed.

(** Witness of C8. *)
Lemma remove_absent_key_witness :
  remove_document "c.csv"
    (session echo_model [("a.txt", "alpha"); ("b.md", "beta")])
  = Ret (session echo_model [("a.txt", "alpha"); ("b.md", "beta")]).
Proof.
  apply (remove_absent_key
           (session echo_model [("a.txt", "alpha"); ("b.md", "beta")]) "c.csv").
  simpl. intros [H|[H|[]]]; discriminate H.
Defined.

(** C10. For every session in which the key is present, [add_document]
    with that key and a new content leaves [get_document_list] as it was,
    makes the new content the one stored under the key, and changes the
    sections that [generate] assembles only at the place of that key: the
    order of the sections is the same. *)
Theorem add_present_key_keeps_order (self : GeminiChat) (key content : string) :
  wf (documents self) ->
  In key (get_document_list self) ->
  get_document_list (add_document key content self) = get_document_list self
  /\ getitem key (documents (add_document key content self)) = Some content
  /\ context_parts (documents (add_document key content self))
     = map (fun item => if String.eqb (fst item) key
                        then section_of (key, content)
                        else section_of item)
           (items (documents self)).
Proof.
  intros Hwf Hin. apply contains_In in Hin.
  unfold get_document_list, add_document. simpl.
  split; [now apply keys_setitem_present|].
  split; [apply getitem_setitem|].
  rewrite context_parts_map, (setitem_present_map _ _ _ Hwf Hin), map_map.
  unfold items. apply map_ext. intros [k v]. simpl.
  destruct (String.eqb k key) eqn:E; [|reflexivity].
  apply String.eqb_eq in E. now subst.
Qed.

(** Witness of C10: the first of two documents is overwritten. *)
Lemma add_present_key_keeps_order_witness :
  get_document_list
    (add_document "a.txt" "ALPHA"
       (session echo_model [("a.txt", "alpha"); ("b.md", "beta")]))
  = ["a.txt"; "b.md"]
  /\ getitem "a.txt"
       (documents
          (add_document "a.txt" "ALPHA"
             (session echo_model [("a.txt", "alpha"); ("b.md", "beta")])))
     = Some "ALPHA"
  /\ context_parts
       (documents
          (add_document "a.txt" "ALPHA"
             (session echo_model [("a.txt", "alpha"); ("b.md", "beta")])))
     = [section_of ("a.txt", "ALPHA"); section_of ("b.md", "beta")].
Proof.
  apply (add_present_key_keeps_order
           (session echo_model [("a.txt", "alpha"); ("b.md", "beta")])
           "a.txt" "ALPHA").
  - repeat constructor; simpl; intuition discriminate.
  - simpl. left. reflexivity.
Defined.

End ChatProps.

(** ** The codecs *)

Module CodecFacts.
Import Codecs.

(** A strict decoding raises nothing but [UnicodeDecodeError]. *)
Lemma assemble_strict_raise (ps : list piece) (e : exn) :
  assemble Strict ps = Raise e -> exn_cls e = UnicodeDecodeError.
Proof.
  induction ps as [|[s|bs reason] ps IH]; simpl.
  - discriminate.
  - destruct (assemble Strict ps) as [r|e'] eqn:E; simpl.
    + discriminate.
    + intros [= <-]. now apply IH.
  - intros [= <-]. reflexivity.
Qed.

(** Decoding with [errors="ignore"] returns. *)
Lemma assemble_ignore_returns (ps : list piece) :
  exists t, assemble Ignore ps = Ret t.
Proof.
  induction ps as [|[s|bs reason] ps [t IH]]; simpl.
  - now exists "".
  - rewrite IH. simpl. eauto.
  - eauto.
Qed.

Lemma decode_strict_raise (t : jis_tables) (encoding : string)
      (data : list byte) (e : exn) :
  In encoding Loader.ENCODINGS ->
  decode t encoding Strict data = Raise e ->
  isinstance e UnicodeDecodeError = true.
Proof.
  intros Hin Hraise.
  assert (Hcls : exn_cls e = UnicodeDecodeError).
  { unfold decode in Hraise.
    destruct Hin as [<-|[<-|[<-|[]]]]; simpl in Hraise;
      eapply assemble_strict_raise; eassumption. }
  destruct e as [c msg]; simpl in Hcls; subst c. reflexivity.
Qed.

Lemma decode_utf8_ignore_returns (t : jis_tables) (data : list byte) :
  exists s, decode t "utf-8" Ignore data = Ret s.
Proof. unfold decode. simpl. apply assemble_ignore_returns. Qed.

(** Whatever the two-byte tables hold, the single byte 0x81 is rejected by
    the three strict decoders: it is a trail byte in UTF-8 and a lead byte
    without its second byte in CP932 and Shift_JIS. *)
Lemma lone_lead_byte_rejected (t : jis_tables) (encoding : string) :
  In encoding Loader.ENCODINGS ->
  exists reason,
    decode t encoding Strict [x81] = Raise (MkExn UnicodeDecodeError reason).
Proof.
  intros [<-|[<-|[<-|[]]]]; eexists; reflexivity.
Qed.

End CodecFacts.

(** ** The document loader *)

Module LoaderFacts.
Import Loader LoaderSpec.

Lemma prefix_append (p s : string) : String.prefix p (p ++ s) = true.
Proof.
  induction p as [|c p IH]; simpl.
  - now destruct s.
  - destruct (ascii_dec c c) as [_|Hne]; [exact IH | congruence].
Qed.

Lemma str_of_int_append_nonempty (n : Z) (tail : string) :
  String.eqb (PyStr.str_of_int n ++ " " ++ tail) "" = false.
Proof.
  apply String.eqb_neq. intros H.
  apply append_eq_empty in H. destruct H as [_ H]. discriminate H.
Qed.

(** [raise_for_status] raises [HTTPError] exactly on the statuses 400 to
    599. *)
Lemma raise_for_status_error (r : Response) :
  (400 <= status_code r < 600)%Z ->
  exists msg, raise_for_status r = Raise (MkExn HTTPError msg).
Proof.
  intros [Hlo Hhi]. unfold raise_for_status.
  apply Z.leb_le in Hlo. rewrite Hlo. simpl andb.
  destruct (status_code r <? 500)%Z eqn:E.
  - change (PyStr.str_of_int (status_code r) ++ " Client Error: " ++ reason r
            ++ " for url: " ++ url r)
      with (PyStr.str_of_int (status_code r)
            ++ " " ++ ("Client Error: " ++ reason r ++ " for url: " ++ url r)).
    rewrite str_of_int_append_nonempty. eauto.
  - apply Z.ltb_ge in E. apply Z.ltb_lt in Hhi.
    assert (H5 : (500 <=? status_code r)%Z = true) by now apply Z.leb_le.
    rewrite H5, Hhi. simpl andb. cbv iota.
    change (PyStr.str_of_int (status_code r) ++ " Server Error: " ++ reason r
            ++ " for url: " ++ url r)
      with (PyStr.str_of_int (status_code r)
            ++ " " ++ ("Server Error: " ++ reason r ++ " for url: " ++ url r)).
    rewrite str_of_int_append_nonempty. eauto.
Qed.

Lemma raise_for_status_quiet (r : Response) :
  (status_code r < 400 \/ 600 <= status_code r)%Z ->
  raise_for_status r = Ret tt.
Proof.
  intros H. unfold raise_for_status.
  assert (H4 : ((400 <=? status_code r) && (status_code r <? 500))%Z = false).
  { apply andb_false_iff. destruct H; [left; apply Z.leb_gt | right; apply Z.ltb_ge]; lia. }
  assert (H5 : ((500 <=? status_code r) && (status_code r <? 600))%Z = false).
  { apply andb_false_iff. destruct H; [left; apply Z.leb_gt | right; apply Z.ltb_ge]; lia. }
  rewrite H4, H5. reflexivity.
Qed.

Section WithExtern.

Context {ext : Extern}.

(** The loop of [_load_text] when strict failures are decode errors. *)
Lemma decode_first_policy (encodings : list string) (data : list byte) :
  (forall encoding e,
      In encoding encodings ->
      bytes_decode encoding Codecs.Strict data = Raise e ->
      isinstance e UnicodeDecodeError = true) ->
  decode_first encodings data
  = match first_strict encodings data with
    | Some t => Ret t
    | None => bytes_decode "utf-8" Codecs.Ignore data
    end.
Proof.
  induction encodings as [|encoding rest IH]; intros Hraise; simpl.
  - reflexivity.
  - destruct (bytes_decode encoding Codecs.Strict data) as [t|e] eqn:E; simpl.
    + reflexivity.
    + rewrite (Hraise encoding e (or_introl eq_refl) E).
      apply IH. intros enc' e' Hin. apply Hraise. now right.
Qed.

Lemma get_unsupported (sfx : string) :
  ~ In sfx SUPPORTED -> get sfx loaders = None.
Proof.
  unfold SUPPORTED, loaders. cbn [In get]. intros Hnot.
  repeat match goal with
         | |- context [String.eqb ?a sfx] =>
             destruct (String.eqb_spec a sfx); [exfalso; apply Hnot; tauto|]
         end.
  reflexivity.
Qed.

End WithExtern.

End LoaderFacts.

Module LoaderProps.
Import Loader LoaderSpec LoaderFacts Fixtures.

(** Counterexample to C4 as stated: [notes.txt] is a string and not a
    URL, and [load] reads the file of that name and returns its text; a
    name with no file behind it fails in [open], and a file with another
    suffix fails as an unsupported file type.  None of the three fails as
    an unsupported source type. *)
Lemma load_path_string_counterexample :
  is_url "notes.txt" = false
  /\ load (ext := stub) (Str "notes.txt") "" = Ret "hello"
  /\ load (ext := stub) (Str "nowhere.txt") ""
     = Raise (MkExn FileNotFoundError
                    "[Errno 2] No such file or directory: 'nowhere.txt'")
  /\ load (ext := stub) (Str "data.bin") ""
     = Raise (MkExn ValueError "Unsupported file type: .bin")
  /\ ~ (forall (ext : Extern) (s filename : string),
           is_url s = false ->
           exists e, load (Str s) filename = Raise e
                     /\ is_UnsupportedSourceType e = true).
Proof.
  split; [reflexivity|]. split; [reflexivity|].
  split; [reflexivity|]. split; [reflexivity|].
  intros H.
  destruct (H stub "notes.txt" "" eq_refl) as (e & Hload & _).
  discriminate Hload.
Qed.

(** C4, amended. For every source that is neither a string nor a byte
    sequence, [load] fails with the unsupported-source-type error.  A
    string that does not begin with [http://] or [https://] is a file
    path: [load] reads that file and hands its bytes to the extractor
    selected by the suffix of the path. *)
Theorem load_source_kinds {ext : Extern} (filename : string) :
  (forall type_repr,
      exists e, load (Other type_repr) filename = Raise e
                /\ is_UnsupportedSourceType e = true)
  /\ (forall s,
         is_url s = false ->
         load (Str s) filename
         = (data <- open_read s ;;
            _load_bytes data (PyStr.lower (PyStr.suffix s)))).
Proof.
  split.
  - intros type_repr. eexists. split; [reflexivity|].
    unfold is_UnsupportedSourceType. cbn [exn_cls exn_str].
    apply andb_true_iff. split; [reflexivity | apply prefix_append].
  - intros s Hnot. unfold load. now rewrite Hnot.
Qed.

(** Witness of C4, amended: an [int] as source, and a path. *)
Lemma load_source_kinds_witness :
  (exists e, load (ext := stub) (Other "<class 'int'>") "" = Raise e
             /\ is_UnsupportedSourceType e = true)
  /\ load (ext := stub) (Str "notes.txt") ""
     = (data <- open_read (Extern := stub) "notes.txt" ;;
        _load_bytes (ext := stub) data (PyStr.lower (PyStr.suffix "notes.txt"))).
Proof.
  split.
  - apply (proj1 (load_source_kinds (ext := stub) "")).
  - apply (proj2 (load_source_kinds (ext := stub) "")). reflexivity.
Defined.

(** Counterexample to C5 as stated: the byte 0x81 is rejected by the three
    strict decoders, and the fallback leaves it out: the text is empty,
    where a decoding that substitutes invalid bytes gives U+FFFD. *)
Lemma load_text_fallback_counterexample :
  first_strict (ext := stub) ENCODINGS [x81] = None
  /\ _load_text (ext := stub) [x81] = Ret ""
  /\ bytes_decode (Extern := stub) "utf-8" Codecs.Replace [x81]
     = Ret Codecs.REPLACEMENT
  /\ _load_text (ext := stub) [x81]
     <> bytes_decode (Extern := stub) "utf-8" Codecs.Replace [x81].
Proof.
  split; [reflexivity|]. split; [reflexivity|]. split; [reflexivity|].
  discriminate.
Qed.

(** C5, amended. Text extraction tries UTF-8, then CP932, then Shift_JIS,
    each strictly, and returns the text under the first that succeeds; if
    none does it returns the UTF-8 decoding that leaves invalid bytes
    out.  It returns for every byte sequence.  In particular bytes that
    are not UTF-8 but are CP932, or else Shift_JIS, give the text of that
    legacy decoding. *)
Theorem load_text_policy {ext : Extern} (data : list byte) :
  strict_raises_decode_error ->
  ignore_returns ->
  ENCODINGS = ["utf-8"; "cp932"; "shift_jis"]
  /\ (exists t,
         _load_text data = Ret t
         /\ match first_strict ENCODINGS data with
            | Some t' => t = t'
            | None => bytes_decode "utf-8" Codecs.Ignore data = Ret t
            end)
  /\ (forall t,
         raises (bytes_decode "utf-8" Codecs.Strict data) ->
         bytes_decode "cp932" Codecs.Strict data = Ret t ->
         _load_text data = Ret t)
  /\ (forall t,
         raises (bytes_decode "utf-8" Codecs.Strict data) ->
         raises (bytes_decode "cp932" Codecs.Strict data) ->
         bytes_decode "shift_jis" Codecs.Strict data = Ret t ->
         _load_text data = Ret t).
Proof.
  intros Hstrict Hignore.
  assert (Hpolicy :
            _load_text data
            = match first_strict ENCODINGS data with
              | Some t => Ret t
              | None => bytes_decode "utf-8" Codecs.Ignore data
              end).
  { apply decode_first_policy. intros enc e Hin. now apply Hstrict. }
  split; [reflexivity|]. split; [|split].
  - rewrite Hpolicy.
    destruct (first_strict ENCODINGS data) as [t|]; [now exists t|].
    destruct (Hignore data) as [t Ht]. exists t. now rewrite Ht.
  - intros t [e1 H1] H2. rewrite Hpolicy.
    unfold ENCODINGS. cbn [first_strict]. now rewrite H1, H2.
  - intros t [e1 H1] [e2 H2] H3. rewrite Hpolicy.
    unfold ENCODINGS. cbn [first_strict]. now rewrite H1, H2, H3.
Qed.

(** Witness of C5, amended: the two bytes of the hiragana letter A in
    CP932, which are not UTF-8. *)
Lemma load_text_policy_witness :
  _load_text (ext := stub) [x82; xa0] = Ret "あ".
Proof.
  refine (proj1 (proj2 (proj2
            (load_text_policy (ext := stub) [x82; xa0] _ _))) "あ" _ _).
  - intros encoding data e. apply CodecFacts.decode_strict_raise.
  - intros data. apply CodecFacts.decode_utf8_ignore_returns.
  - eexists. reflexivity.
  - reflexivity.
Defined.

(** C6. For every byte sequence and every file name, [load] selects the
    extractor by the suffix of the name, compared with [.pdf], [.txt],
    [.md] and [.csv] exactly but for the case of the letters: the PDF
    extractor for [.pdf], the text extractor for [.txt] and [.md], the CSV
    extractor for [.csv].  When the suffix matches none of the four,
    [load] fails with the unsupported-file-type error. *)
Theorem load_bytes_by_suffix {ext : Extern} (data : list byte)
        (filename : string) :
  (matches (PyStr.suffix filename) ".pdf" ->
   load (Bytes data) filename = _load_pdf data)
  /\ (matches (PyStr.suffix filename) ".txt"
      \/ matches (PyStr.suffix filename) ".md" ->
      load (Bytes data) filename = _load_text data)
  /\ (matches (PyStr.suffix filename) ".csv" ->
      load (Bytes data) filename = _load_csv data)
  /\ ((forall supported,
          In supported SUPPORTED -> ~ matches (PyStr.suffix filename) supported) ->
      exists e, load (Bytes data) filename = Raise e
                /\ is_UnsupportedFormat e = true).
Proof.
  unfold matches, load, _load_bytes.
  repeat split.
  - intros ->. reflexivity.
  - intros [-> | ->]; reflexivity.
  - intros ->. reflexivity.
  - intros Hnone.
    rewrite get_unsupported.
    + eexists. split; [reflexivity|].
      unfold is_UnsupportedFormat. cbn [exn_cls exn_str].
      apply andb_true_iff. split; [reflexivity | apply prefix_append].
    + intros Hin. apply (Hnone _ Hin).
      unfold SUPPORTED in Hin. cbn [In] in Hin.
      destruct Hin as [<-|[<-|[<-|[<-|[]]]]]; reflexivity.
Qed.

(** Witness of C6: an upper-case [.TXT] is read as text, and [.docx] is
    refused. *)
Lemma load_bytes_by_suffix_witness :
  load (ext := stub) (Bytes (list_byte_of_string "hello")) "README.TXT"
  = _load_text (ext := stub) (list_byte_of_string "hello")
  /\ exists e,
      load (ext := stub) (Bytes (list_byte_of_string "hello")) "letter.docx"
      = Raise e
      /\ is_UnsupportedFormat e = true.
Proof.
  split.
  - apply (proj1 (proj2 (load_bytes_by_suffix (ext := stub)
                           (list_byte_of_string "hello") "README.TXT"))).
    left. reflexivity.
  - apply (proj2 (proj2 (proj2 (load_bytes_by_suffix (ext := stub)
                           (list_byte_of_string "hello") "letter.docx")))).
    unfold matches, SUPPORTED. cbn [In].
    intros supported [<-|[<-|[<-|[<-|[]]]]]; vm_compute; discriminate.
Defined.

(** Counterexample to C9 as stated: the fetch answers 304, which is not a
    2xx status, and [load] returns the (empty) text of the page. *)
Lemma load_web_not_modified_counterexample :
  is_url "https://example.com/cached" = true
  /\ requests_get (Extern := stub) "https://example.com/cached"
       [("User-Agent", USER_AGENT)] 10 = Ret NOT_MODIFIED
  /\ status_code NOT_MODIFIED = 304%Z
  /\ load (ext := stub) (Str "https://example.com/cached") "" = Ret ""
  /\ ~ (forall (ext : Extern) (u filename : string) (r : Response),
           is_url u = true ->
           requests_get u [("User-Agent", USER_AGENT)] 10 = Ret r ->
           ~ (200 <= status_code r < 300)%Z ->
           exists e, load (Str u) filename = Raise e
                     /\ is_FetchError e = true).
Proof.
  split; [reflexivity|]. split; [reflexivity|]. split; [reflexivity|].
  split; [reflexivity|].
  intros H.
  destruct (H stub "https://example.com/cached" "" NOT_MODIFIED
              eq_refl eq_refl) as (e & Hload & _).
  - simpl. lia.
  - discriminate Hload.
Qed.

(** C9, amended. For every URL and every response of the fetch with a
    status from 400 to 599, [load] on that URL fails with [HTTPError], a
    fetch error. *)
Theorem load_web_http_error {ext : Extern} (u filename : string)
        (r : Response) :
  is_url u = true ->
  requests_get u [("User-Agent", USER_AGENT)] 10 = Ret r ->
  (400 <= status_code r < 600)%Z ->
  exists e, load (Str u) filename = Raise e
            /\ exn_cls e = HTTPError
            /\ is_FetchError e = true.
Proof.
  intros Hurl Hget Hstatus.
  destruct (raise_for_status_error r Hstatus) as [msg Hmsg].
  exists (MkExn HTTPError msg).
  split; [|split; reflexivity].
  unfold load. rewrite Hurl. unfold _load_web.
  rewrite Hget. simpl. now rewrite Hmsg.
Qed.

(** Witness of C9, amended: the fetch answers 404. *)
Lemma load_web_http_error_witness :
  exists e, load (ext := stub) (Str "https://example.com/missing") "" = Raise e
            /\ exn_cls e = HTTPError
            /\ is_FetchError e = true.
Proof.
  apply (load_web_http_error (ext := stub)
           "https://example.com/missing" "" NOT_FOUND).
  - reflexivity.
  - reflexivity.
  - simpl. lia.
Defined.

End LoaderProps.

(** ** More on the chat session *)

Module ChatMore.
Import Chat ChatSpec ChatFacts ChatOps Fixtures.

Lemma getitem_setitem_other (k k' v : string) (d : dict) :
  k' <> k -> getitem k' (setitem k v d) = getitem k' d.
Proof.
  intros Hne.
  induction d as [|[k0 v0] d IH]; simpl.
  - destruct (String.eqb_spec k k'); [congruence | reflexivity].
  - destruct (String.eqb k0 k) eqn:E; simpl.
    + apply String.eqb_eq in E. subst k0.
      destruct (String.eqb_spec k k'); [congruence | reflexivity].
    + now rewrite IH.
Qed.

Lemma keys_setitem (k v : string) (d : dict) :
  keys (setitem k v d)
  = (keys d ++ (if contains k d then [] else [k]))%list.
Proof.
  destruct (contains k d) eqn:E.
  - rewrite app_nil_r. now apply keys_setitem_present.
  - rewrite (setitem_absent _ _ _ E). unfold keys. now rewrite map_app.
Qed.

Lemma setitem_setitem (k v1 v2 : string) (d : dict) :
  setitem k v2 (setitem k v1 d) = setitem k v2 d.
Proof.
  induction d as [|[k0 v0] d IH]; simpl.
  - now rewrite String.eqb_refl.
  - destruct (String.eqb k0 k) eqn:E; simpl; rewrite E; [reflexivity|].
    now rewrite IH.
Qed.

Lemma delitem_absent (k : string) (d : dict) :
  contains k d = false -> delitem k d = d.
Proof.
  induction d as [|[k0 v0] d IH]; simpl; [reflexivity|].
  destruct (String.eqb k0 k); simpl; [discriminate|].
  intros H. now rewrite IH.
Qed.

Lemma filter_other_absent (k : string) (d : dict) :
  ~ In k (keys d) ->
  filter (fun k' => negb (String.eqb k' k)) (keys d) = keys d.
Proof.
  induction d as [|[k0 v0] d IH]; simpl; [reflexivity|].
  intros Hnot.
  destruct (String.eqb_spec k0 k); [tauto|]. simpl.
  f_equal. apply IH. tauto.
Qed.

Lemma keys_delitem (k : string) (d : dict) :
  wf d ->
  keys (delitem k d) = filter (fun k' => negb (String.eqb k' k)) (keys d).
Proof.
  unfold wf.
  induction d as [|[k0 v0] d IH]; simpl; intros Hnd; [reflexivity|].
  inversion Hnd as [|? ? Hnotin Hnd']; subst.
  destruct (String.eqb_spec k0 k); simpl.
  - subst k0. symmetry. now apply filter_other_absent.
  - f_equal. now apply IH.
Qed.

Lemma getitem_absent (k : string) (d : dict) :
  ~ In k (keys d) -> getitem k d = None.
Proof.
  induction d as [|[k0 v0] d IH]; simpl; [reflexivity|].
  intros Hnot.
  destruct (String.eqb_spec k0 k); [tauto|].
  apply IH. tauto.
Qed.

Lemma getitem_delitem (k : string) (d : dict) :
  wf d -> getitem k (delitem k d) = None.
Proof.
  unfold wf.
  induction d as [|[k0 v0] d IH]; simpl; intros Hnd; [reflexivity|].
  inversion Hnd as [|? ? Hnotin Hnd']; subst.
  destruct (String.eqb_spec k0 k); simpl.
  - subst k0. now apply getitem_absent.
  - destruct (String.eqb_spec k0 k); [congruence|]. now apply IH.
Qed.

Lemma getitem_delitem_other (k k' : string) (d : dict) :
  k' <> k -> getitem k' (delitem k d) = getitem k' d.
Proof.
  intros Hne.
  induction d as [|[k0 v0] d IH]; simpl; [reflexivity|].
  destruct (String.eqb_spec k0 k); simpl.
  - subst k0. destruct (String.eqb_spec k k'); [congruence | reflexivity].
  - now rewrite IH.
Qed.

(** [remove_document] always deletes with [delitem], which leaves a dict
    without the key as it is. *)
Lemma remove_document_delitem (self : GeminiChat) (k : string) :
  remove_document k self
  = Ret (set_documents self (delitem k (documents self))).
Proof.
  unfold remove_document.
  destruct (contains k (documents self)) eqn:E; [reflexivity|].
  rewrite (delitem_absent _ _ E). now rewrite set_documents_same.
Qed.

Lemma step_wf (self : GeminiChat) (c : call) :
  wf (documents self) ->
  exists self', step self c = Ret self' /\ wf (documents self').
Proof.
  intros Hwf. destruct c as [k v|k|]; simpl.
  - eexists. split; [reflexivity|]. simpl. now apply wf_setitem.
  - rewrite remove_document_delitem.
    eexists. split; [reflexivity|]. simpl. now apply wf_delitem.
  - eexists. split; [reflexivity|]. apply wf_empty.
Qed.

Lemma run_wf (calls : list call) (self : GeminiChat) :
  wf (documents self) ->
  exists self', run calls self = Ret self' /\ wf (documents self').
Proof.
  revert self. induction calls as [|c calls IH]; intros self Hwf; simpl.
  - now exists self.
  - destruct (step_wf self c Hwf) as (self1 & Hstep & Hwf1).
    rewrite Hstep. simpl. now apply IH.
Qed.

Lemma setitem_In (k v : string) (d : dict) : In (k, v) (setitem k v d).
Proof.
  induction d as [|[k0 v0] d IH]; simpl; [now left|].
  destruct (String.eqb_spec k0 k); simpl; [subst; now left | now right].
Qed.

Lemma setitem_nonempty (k v : string) (d : dict) : setitem k v d <> [].
Proof.
  destruct d as [|[k0 v0] d]; simpl; [discriminate|].
  destruct (String.eqb k0 k); discriminate.
Qed.

(** A document of the dict has its header and its content, in that
    order, in the context block. *)
Lemma occurs_document (k c : string) (d : dict) (ps : list string)
      (tail : string) :
  In (k, c) d ->
  occurs_in_order ps tail ->
  occurs_in_order (header k :: c :: ps) (context_block d ++ tail).
Proof.
  intros Hin Htail.
  induction d as [|[k0 c0] d IH]; [destruct Hin|].
  destruct d as [|item d].
  - destruct Hin as [[= -> ->]|[]].
    change (context_block [(k, c)]) with (header k ++ c).
    rewrite append_assoc. apply occurs_here, occurs_here, Htail.
  - change (context_block ((k0, c0) :: item :: d))
      with (header k0 ++ c0 ++ (LF ++ LF) ++ context_block (item :: d)).
    rewrite !append_assoc.
    destruct Hin as [[= -> ->]|Hin].
    + apply occurs_here, occurs_here.
      rewrite <- append_assoc. apply occurs_skip, occurs_skip, Htail.
    + apply occurs_skip, occurs_skip.
      rewrite <- append_assoc. apply occurs_skip, IH, Hin.
Qed.

(** X1. After [add_document] the content stored under the key is the one
    just given, and every other key has the content it had. *)
Theorem add_document_lookup (self : GeminiChat) (key content : string) :
  getitem key (documents (add_document key content self)) = Some content
  /\ (forall other,
         other <> key ->
         getitem other (documents (add_document key content self))
         = getitem other (documents self)).
Proof.
  split.
  - apply getitem_setitem.
  - intros other Hne. simpl. now apply getitem_setitem_other.
Qed.

(** Witness of X1. *)
Lemma add_document_lookup_witness :
  getitem "a.txt"
    (documents (add_document "b.md" "beta"
                  (session echo_model [("a.txt", "alpha")])))
  = getitem "a.txt" (documents (session echo_model [("a.txt", "alpha")])).
Proof.
  apply (proj2 (add_document_lookup (session echo_model [("a.txt", "alpha")])
                                    "b.md" "beta")).
  discriminate.
Defined.

(** X2. [add_document] never removes or moves a key: the list of keys
    after the call is the list before, followed by the key when it was
    not there yet. *)
Theorem add_document_keys (self : GeminiChat) (key content : string) :
  get_document_list (add_document key content self)
  = (get_document_list self
     ++ (if contains key (documents self) then [] else [key]))%list.
Proof.
  unfold get_document_list, add_document. simpl. apply keys_setitem.
Qed.

(** X3. Whatever calls of [add_document], [remove_document] and
    [clear_documents] follow the construction of a session, none raises
    and no key is listed twice by [get_document_list]. *)
Theorem calls_keep_keys_unique (m : GenerativeModel) (calls : list call) :
  exists self',
    run calls (new_chat m) = Ret self'
    /\ NoDup (get_document_list self').
Proof.
  apply run_wf. apply wf_empty.
Qed.

(** X4. On a session with one entry per key, [remove_document] returns
    a session whose keys are the former ones without the given key, in
    the same order; the key has no content any more and every other key
    keeps its content. *)
Theorem remove_document_effect (self : GeminiChat) (key : string) :
  wf (documents self) ->
  exists self',
    remove_document key self = Ret self'
    /\ get_document_list self'
       = filter (fun k => negb (String.eqb k key)) (get_document_list self)
    /\ getitem key (documents self') = None
    /\ (forall other,
           other <> key ->
           getitem other (documents self') = getitem other (documents self)).
Proof.
  intros Hwf. rewrite remove_document_delitem.
  eexists. split; [reflexivity|].
  unfold get_document_list. simpl.
  split; [now apply keys_delitem|].
  split; [now apply getitem_delitem|].
  intros other Hne. now apply getitem_delitem_other.
Qed.

(** Witness of X4: the first of two documents is removed. *)
Lemma remove_document_effect_witness :
  exists self',
    remove_document "a.txt"
      (session echo_model [("a.txt", "alpha"); ("b.md", "beta")]) = Ret self'
    /\ get_document_list self' = ["b.md"]
    /\ getitem "a.txt" (documents self') = None
    /\ (forall other,
           other <> "a.txt" ->
           getitem other (documents self')
           = getitem other [("a.txt", "alpha"); ("b.md", "beta")]).
Proof.
  apply (remove_document_effect
           (session echo_model [("a.txt", "alpha"); ("b.md", "beta")]) "a.txt").
  repeat constructor; simpl; intuition discriminate.
Defined.

(** X5. The last write wins: adding a key twice leaves the session as the
    second [add_document] alone would. *)
Theorem add_document_twice (self : GeminiChat) (key first second : string) :
  add_document key second (add_document key first self)
  = add_document key second self.
Proof.
  unfold add_document, set_documents. simpl. now rewrite setitem_setitem.
Qed.

(** X6. When there is a document and the model answers the prompt with a
    readable text, [generate] returns that text as it is. *)
Theorem generate_returns_model_text (self : GeminiChat)
        (query prompt answer : string) (response : GenerateContentResponse) :
  documents self <> [] ->
  snd (generate self query) = [prompt] ->
  generate_content (model self) prompt = Ret response ->
  text response = Ret answer ->
  fst (generate self query) = Ret answer.
Proof.
  intros Hne. rewrite (ChatProps.generate_nonempty self query Hne).
  simpl fst. simpl snd. intros [= <-] Hcall Htext.
  rewrite Hcall. cbn [bind]. now rewrite Htext.
Qed.

(** Witness of X6: the echoing model returns the prompt. *)
Lemma generate_returns_model_text_witness :
  fst (generate (session echo_model [("a.txt", "alpha")]) "?")
  = Ret (build_prompt (context_block [("a.txt", "alpha")]) "?").
Proof.
  apply (generate_returns_model_text
           (session echo_model [("a.txt", "alpha")]) "?"
           (build_prompt (context_block [("a.txt", "alpha")]) "?")
           (build_prompt (context_block [("a.txt", "alpha")]) "?")
           {| text := Ret (build_prompt (context_block [("a.txt", "alpha")]) "?") |}).
  - simpl. discriminate.
  - reflexivity.
  - reflexivity.
  - reflexivity.
Defined.

(** X7. Right after [add_document], [generate] passes exactly one prompt
    to the model, and the header of the added key, the added content and
    the query occur in it in that order, whatever else the session
    holds. *)
Theorem generate_after_add (self : GeminiChat) (key content query : string) :
  exists prompt,
    snd (generate (add_document key content self) query) = [prompt]
    /\ occurs_in_order [header key; content; query] prompt.
Proof.
  rewrite (ChatProps.generate_nonempty (add_document key content self) query)
    by apply setitem_nonempty.
  eexists. split; [reflexivity|].
  unfold build_prompt.
  apply occurs_skip, occurs_skip, occurs_skip.
  apply occurs_document; [apply setitem_In|].
  apply occurs_skip, occurs_here. exact I.
Qed.

End ChatMore.

(** ** More on strings and paths *)

Module StrFacts.
Import ExtraSpec.

Lemma chars_app (a b : string) : chars (a ++ b) = (chars a ++ chars b)%list.
Proof.
  unfold chars. induction a as [|c a IH]; simpl; [reflexivity|].
  now rewrite IH.
Qed.

Lemma length_append (a b : string) :
  String.length (a ++ b) = String.length a + String.length b.
Proof.
  induction a as [|c a IH]; simpl; [reflexivity|]. now rewrite IH.
Qed.

Lemma chars_rev_string (s : string) : chars (PyStr.rev_string s) = rev (chars s).
Proof.
  unfold chars, PyStr.rev_string.
  apply list_ascii_of_string_of_list_ascii.
Qed.

Lemma drop_prefix_app (p s s' : string) :
  PyStr.drop_prefix p s = Some s' -> s = p ++ s'.
Proof.
  revert s. induction p as [|a p IH]; intros s; simpl.
  - now intros [= ->].
  - destruct s as [|b s]; [discriminate|].
    destruct (Ascii.eqb_spec a b); [|discriminate].
    intros H. subst b. now rewrite (IH s H).
Qed.

Lemma drop_any_app (ps : list string) (s s' : string) :
  PyStr.drop_any ps s = Some s' -> exists p, s = p ++ s'.
Proof.
  induction ps as [|p ps IH]; simpl; [discriminate|].
  destruct (PyStr.drop_prefix p s) as [r|] eqn:E.
  - intros [= <-]. exists p. now apply drop_prefix_app.
  - exact IH.
Qed.

(** Stripping on the left leaves an end of the string. *)
Lemma lstrip_with_app (ps : list string) (n : nat) (s : string) :
  exists p, s = p ++ PyStr.lstrip_with ps n s.
Proof.
  revert s. induction n as [|n IH]; intros s; simpl.
  - now exists "".
  - destruct (PyStr.drop_any ps s) as [s'|] eqn:E.
    + destruct (drop_any_app _ _ _ E) as [p ->].
      destruct (IH s') as [q Hq].
      exists (p ++ q). rewrite append_assoc. now rewrite <- Hq.
    + now exists "".
Qed.

Lemma lstrip_with_chars (ps : list string) (n : nat) (s : string) (c : ascii) :
  In c (chars (PyStr.lstrip_with ps n s)) -> In c (chars s).
Proof.
  intros Hin. destruct (lstrip_with_app ps n s) as [p Hp].
  rewrite Hp, chars_app. apply in_or_app. now right.
Qed.

(** [strip] only takes characters away. *)
Lemma strip_chars (s : string) (c : ascii) :
  In c (chars (PyStr.strip s)) -> In c (chars s).
Proof.
  unfold PyStr.strip, PyStr.rstrip, PyStr.lstrip. intros Hin.
  rewrite chars_rev_string in Hin. apply in_rev in Hin.
  apply lstrip_with_chars in Hin.
  rewrite chars_rev_string in Hin. apply in_rev in Hin.
  now apply lstrip_with_chars in Hin.
Qed.

Lemma split_nonempty (sep : ascii) (s : string) : PyStr.split sep s <> [].
Proof.
  induction s as [|c s IH]; simpl; [discriminate|].
  destruct (Ascii.eqb c sep); [discriminate|].
  destruct (PyStr.split sep s); [congruence | discriminate].
Qed.

(** No piece of a split holds the separator. *)
Lemma split_no_sep (sep : ascii) (s : string) :
  Forall (fun w => ~ In sep (chars w)) (PyStr.split sep s).
Proof.
  induction s as [|c s IH]; simpl.
  - constructor; [simpl; tauto | constructor].
  - destruct (Ascii.eqb_spec c sep).
    + constructor; [simpl; tauto | exact IH].
    + destruct (PyStr.split sep s) as [|w ws].
      * constructor; [|constructor]. simpl. intros [H|[]]. congruence.
      * inversion IH as [|? ? Hw Hws]; subst.
        constructor; [|exact Hws].
        unfold chars in *. simpl. intros [H|H]; [congruence | tauto].
Qed.

Lemma split_single (sep : ascii) (s : string) :
  ~ In sep (chars s) -> PyStr.split sep s = [s].
Proof.
  unfold chars. induction s as [|c s IH]; simpl; [reflexivity|].
  intros Hnot.
  destruct (Ascii.eqb_spec c sep); [subst; tauto|].
  rewrite IH by tauto. reflexivity.
Qed.

Lemma split_app_sep (sep : ascii) (p s : string) :
  ~ In sep (chars p) ->
  PyStr.split sep (p ++ String sep s) = p :: PyStr.split sep s.
Proof.
  unfold chars. induction p as [|c p IH]; simpl; intros Hnot.
  - now rewrite Ascii.eqb_refl.
  - destruct (Ascii.eqb_spec c sep); [subst; tauto|].
    rewrite IH by tauto. reflexivity.
Qed.

(** Joining with a separator and splitting on it gives the lines back,
    when there is a line and no line holds the separator. *)
Lemma split_join (sep : ascii) (lines : list string) :
  lines <> [] ->
  Forall (fun w => ~ In sep (chars w)) lines ->
  PyStr.split sep (join (String sep "") lines) = lines.
Proof.
  induction lines as [|p rest IH]; [congruence|].
  intros _ Hall. inversion Hall as [|? ? Hp Hrest]; subst.
  destruct rest as [|q rest].
  - simpl. now apply split_single.
  - change (join (String sep "") (p :: q :: rest))
      with (p ++ String sep (join (String sep "") (q :: rest))).
    rewrite split_app_sep by assumption.
    f_equal. apply IH; [discriminate | assumption].
Qed.

Lemma rfind_absent (c : ascii) (s : string) :
  ~ In c (chars s) -> PyStr.rfind c s = None.
Proof.
  unfold chars. induction s as [|a s IH]; simpl; [reflexivity|].
  intros Hnot. rewrite IH by tauto.
  destruct (Ascii.eqb_spec a c); [subst; tauto | reflexivity].
Qed.

Lemma rfind_last (c : ascii) (a b : string) :
  ~ In c (chars b) ->
  PyStr.rfind c (a ++ String c b) = Some (String.length a).
Proof.
  intros Hnot. induction a as [|x a IH]; simpl.
  - rewrite (rfind_absent _ _ Hnot). now rewrite Ascii.eqb_refl.
  - now rewrite IH.
Qed.

Lemma substring_whole (b : string) : substring 0 (String.length b) b = b.
Proof.
  induction b as [|c b IH]; simpl; [reflexivity|]. now rewrite IH.
Qed.

Lemma substring_app (a b : string) :
  substring (String.length a) (String.length b) (a ++ b) = b.
Proof.
  induction a as [|c a IH]; simpl; [apply substring_whole | exact IH].
Qed.

(** The name of a path without a slash is the path itself, unless it is
    empty or a single dot. *)
Lemma path_name_plain (p : string) :
  ~ In "/"%char (chars p) ->
  PyStr.path_name p = if String.eqb p "" || String.eqb p "." then "" else p.
Proof.
  intros Hnot. unfold PyStr.path_name.
  rewrite (split_single _ _ Hnot). simpl.
  destruct (String.eqb p "" || String.eqb p "."); reflexivity.
Qed.

(** The suffix of [stem.e]: a dot and [e], when the stem is not empty, [e]
    is not empty and holds no dot, and there is no slash. *)
Lemma suffix_of_name (stem e : string) :
  stem <> "" -> e <> "" ->
  ~ In "/"%char (chars stem) ->
  ~ In "/"%char (chars e) -> ~ In "."%char (chars e) ->
  PyStr.suffix (stem ++ "." ++ e) = "." ++ e.
Proof.
  intros Hstem He Hs1 Hs2 Hdot.
  unfold PyStr.suffix.
  assert (Hplain : PyStr.path_name (stem ++ "." ++ e) = stem ++ "." ++ e).
  { rewrite path_name_plain.
    - destruct stem as [|a stem]; [congruence|].
      destruct stem as [|a' stem]; simpl.
      + destruct e as [|x e]; [congruence|].
        destruct (Ascii.eqb a "."); reflexivity.
      + destruct (Ascii.eqb a "."); [|reflexivity].
        destruct (Ascii.eqb a' "."); reflexivity.
    - rewrite chars_app. intros Hin. apply in_app_or in Hin.
      destruct Hin as [Hin|Hin]; [tauto|].
      unfold chars in Hin. simpl in Hin.
      destruct Hin as [Hin|Hin]; [discriminate | tauto]. }
  rewrite Hplain.
  change (stem ++ "." ++ e) with (stem ++ String "." e).
  rewrite (rfind_last _ stem e Hdot).
  rewrite length_append. simpl String.length.
  assert (H0 : (0 <? String.length stem)%nat = true).
  { destruct stem; [congruence|]. reflexivity. }
  assert (H1 : (String.length stem
                <? String.length stem + S (String.length e) - 1)%nat = true).
  { apply Nat.ltb_lt. destruct e; [congruence|]. simpl. lia. }
  rewrite H0, H1. simpl andb. cbv iota.
  replace (String.length stem + S (String.length e) - String.length stem)
    with (String.length (String "." e)) by (simpl; lia).
  apply substring_app.
Qed.

(** A name without a slash, with no dot or with its only dot in front, has
    no suffix. *)
Lemma suffix_none (front e : string) :
  front = "" \/ front = "." ->
  ~ In "/"%char (chars e) -> ~ In "."%char (chars e) ->
  PyStr.suffix (front ++ e) = "".
Proof.
  intros Hfront Hslash Hdot.
  unfold PyStr.suffix.
  assert (Hns : ~ In "/"%char (chars (front ++ e))).
  { rewrite chars_app. intros Hin. apply in_app_or in Hin.
    destruct Hin as [Hin|Hin]; [|tauto].
    destruct Hfront as [-> | ->]; unfold chars in Hin; simpl in Hin;
      [tauto | destruct Hin as [Hin|[]]; discriminate]. }
  rewrite (path_name_plain _ Hns).
  destruct (String.eqb (front ++ e) "" || String.eqb (front ++ e) ".");
    [reflexivity|].
  destruct Hfront as [-> | ->].
  - simpl. now rewrite (rfind_absent _ _ Hdot).
  - change ("." ++ e) with ("" ++ String "." e).
    rewrite (rfind_last _ "" e Hdot). reflexivity.
Qed.

End StrFacts.

(** ** More on the document loader *)

Module LoaderMore.
Import Loader LoaderSpec LoaderFacts ExtraSpec StrFacts.

Section WithExtern.

Context {ext : Extern}.

(** The loop of [_load_pdf] over pages that all give a text. *)
Lemma pdf_texts_all (texts acc : list string) :
  pdf_texts (map Ret texts) acc = Ret (acc ++ filter nonempty texts)%list.
Proof.
  revert acc. induction texts as [|t texts IH]; intros acc; simpl.
  - now rewrite app_nil_r.
  - rewrite IH. unfold nonempty at 2.
    destruct (String.eqb t ""); simpl; [reflexivity|].
    now rewrite <- app_assoc.
Qed.

(** The loop stops at the first page whose extraction raises. *)
Lemma pdf_texts_raise (texts acc : list string) (e : exn)
      (rest : list (outcome string)) :
  pdf_texts (map Ret texts ++ Raise e :: rest)%list acc = Raise e.
Proof.
  revert acc. induction texts as [|t texts IH]; intros acc; simpl.
  - reflexivity.
  - apply IH.
Qed.

Lemma load_text_returns (data : list byte) :
  strict_raises_decode_error -> ignore_returns ->
  exists t, _load_text data = Ret t.
Proof.
  intros Hstrict Hignore. unfold _load_text.
  rewrite decode_first_policy by (intros enc e Hin; now apply Hstrict).
  destruct (first_strict ENCODINGS data) as [t|]; [now exists t|].
  apply Hignore.
Qed.

Lemma nonblank_strip (line : string) :
  nonblank line = true -> PyStr.strip line <> "".
Proof.
  unfold nonblank. destruct (String.eqb_spec (PyStr.strip line) "");
    [discriminate | auto].
Qed.

(** The lines [_load_web] keeps: none is empty, none holds a line feed. *)
Lemma kept_lines (t : string) :
  Forall (fun line => line <> "" /\ ~ In "010"%char (chars line))
         (map PyStr.strip (filter nonblank (PyStr.split "010"%char t))).
Proof.
  apply Forall_forall. intros line Hin.
  apply in_map_iff in Hin. destruct Hin as (raw & <- & Hraw).
  apply filter_In in Hraw. destruct Hraw as [Hraw Hnb].
  split; [now apply nonblank_strip|].
  intros Hlf. apply strip_chars in Hlf.
  pose proof (split_no_sep "010"%char t) as Hall.
  rewrite Forall_forall in Hall. exact (Hall raw Hraw Hlf).
Qed.

Lemma load_web_ok (u : string) (r : Response) (t : string) :
  requests_get u [("User-Agent", USER_AGENT)] 10 = Ret r ->
  (status_code r < 400 \/ 600 <= status_code r)%Z ->
  soup_text (text r) REMOVED_TAGS LF true = Ret t ->
  _load_web u
  = Ret (join LF (map PyStr.strip
                      (filter nonblank (PyStr.split "010"%char t)))).
Proof.
  intros Hget Hstatus Hsoup. unfold _load_web.
  rewrite Hget. simpl. rewrite (raise_for_status_quiet r Hstatus). simpl.
  rewrite Hsoup. reflexivity.
Qed.

(** X8. When the PDF reader finds the pages and every page gives a text,
    [_load_pdf] returns the texts that are not empty, in page order,
    joined by line feeds. *)
Theorem load_pdf_joins_pages (data : list byte) (texts : list string) :
  pdf_pages data = Ret (map Ret texts) ->
  _load_pdf data = Ret (join LF (filter nonempty texts)).
Proof.
  intros Hpages. unfold _load_pdf. rewrite Hpages. simpl.
  now rewrite pdf_texts_all.
Qed.

(** X9. For a file name with the suffix [.pdf] in any case, an error of
    the PDF reader, or of the extraction of a page after any number of
    pages that gave a text, comes out of [load] as it is, whatever the
    later pages hold. *)
Theorem load_pdf_error (data : list byte) (filename : string) (e : exn) :
  matches (PyStr.suffix filename) ".pdf" ->
  (pdf_pages data = Raise e
   \/ exists texts rest,
       pdf_pages data = Ret (map Ret texts ++ Raise e :: rest)%list) ->
  load (Bytes data) filename = Raise e.
Proof.
  unfold matches. intros Hsfx Hfail.
  unfold load. rewrite Hsfx.
  change (_load_bytes data (PyStr.lower ".pdf")) with (_load_pdf data).
  unfold _load_pdf.
  destruct Hfail as [Hread | (texts & rest & Hpages)].
  - now rewrite Hread.
  - rewrite Hpages. simpl. now rewrite pdf_texts_raise.
Qed.

(** X10. Under the contract of [bytes.decode], [_load_csv] parses and
    renders the text that [_load_text] decodes from the bytes, so that it
    fails only where the parser or the renderer does. *)
Theorem load_csv_decodes_then_parses (data : list byte) :
  strict_raises_decode_error ->
  ignore_returns ->
  exists t,
    _load_text data = Ret t
    /\ _load_csv data = (df <- read_csv t ;; to_markdown df).
Proof.
  intros Hstrict Hignore.
  destruct (load_text_returns data Hstrict Hignore) as [t Ht].
  exists t. split; [exact Ht|].
  unfold _load_csv. now rewrite Ht.
Qed.

(** X11. Failures of the two inputs come out of [load] as they are: for a
    URL the exception of [requests.get], and for any other string the
    exception of [open], whatever the suffix of the path. *)
Theorem load_io_error (s filename : string) (e : exn) :
  (is_url s = true ->
   requests_get s [("User-Agent", USER_AGENT)] 10 = Raise e ->
   load (Str s) filename = Raise e)
  /\ (is_url s = false ->
      open_read s = Raise e ->
      load (Str s) filename = Raise e).
Proof.
  split; intros Hurl Hfail; unfold load; rewrite Hurl.
  - unfold _load_web. now rewrite Hfail.
  - unfold _load_file. now rewrite Hfail.
Qed.

(** X12. For a URL whose response has a status below 400 or from 600 on
    and whose page the parser turns into a text, [load] returns the lines
    of that text stripped, without those that are blank, joined by line
    feeds.  No kept line is empty.  Splitting the result on line feeds
    gives the kept lines back when there is one; when no line is kept the
    result is the empty string, which splits into one empty line. *)
Theorem load_web_lines (u filename : string) (r : Response) (t : string) :
  is_url u = true ->
  requests_get u [("User-Agent", USER_AGENT)] 10 = Ret r ->
  (status_code r < 400 \/ 600 <= status_code r)%Z ->
  soup_text (text r) REMOVED_TAGS LF true = Ret t ->
  exists lines,
    load (Str u) filename = Ret (join LF lines)
    /\ lines = map PyStr.strip (filter nonblank (PyStr.split "010"%char t))
    /\ Forall (fun line => line <> "") lines
    /\ PyStr.split "010"%char (join LF lines)
       = match lines with
         | [] => [""]
         | _ :: _ => lines
         end.
Proof.
  intros Hurl Hget Hstatus Hsoup.
  eexists. split; [|split; [reflexivity|]].
  - unfold load. rewrite Hurl. now apply (load_web_ok u r t).
  - pose proof (kept_lines t) as Hkept. split.
    + eapply Forall_impl; [|exact Hkept]. intros line [Hne _]. exact Hne.
    + destruct (map PyStr.strip (filter nonblank (PyStr.split "010"%char t)))
        as [|line lines] eqn:E; [reflexivity|].
      apply split_join; [discriminate|].
      eapply Forall_impl; [|exact Hkept]. intros l [_ Hlf]. exact Hlf.
Qed.

(** X13. A file name made of a stem, a dot and an extension, without
    slash and with no dot in the extension, is dispatched on the
    lower-cased extension alone. *)
Theorem load_bytes_named (data : list byte) (stem e : string) :
  stem <> "" -> e <> "" ->
  ~ In "/"%char (chars stem) ->
  ~ In "/"%char (chars e) -> ~ In "."%char (chars e) ->
  load (Bytes data) (stem ++ "." ++ e)
  = _load_bytes data (PyStr.lower ("." ++ e)).
Proof.
  intros Hstem He Hs1 Hs2 Hdot. unfold load.
  now rewrite suffix_of_name.
Qed.

(** X14. A file name without slash that has no dot, or whose only dot is
    its first character, is refused as an unsupported file type with an
    empty suffix in the message. *)
Theorem load_bytes_no_suffix (data : list byte) (front e : string) :
  front = "" \/ front = "." ->
  ~ In "/"%char (chars e) -> ~ In "."%char (chars e) ->
  load (Bytes data) (front ++ e)
  = Raise (MkExn ValueError UNSUPPORTED_FILE).
Proof.
  intros Hfront Hslash Hdot. unfold load.
  rewrite (suffix_none front e Hfront Hslash Hdot). reflexivity.
Qed.

End WithExtern.

(** Witness of X8: three pages, the second without text. *)
Lemma load_pdf_joins_pages_witness :
  _load_pdf (ext := MoreFixtures.desk) [x25; x50; x44; x46]
  = Ret ("page one" ++ LF ++ "page three").
Proof.
  apply (load_pdf_joins_pages (ext := MoreFixtures.desk)
           [x25; x50; x44; x46] ["page one"; ""; "page three"]).
  reflexivity.
Defined.

(** Witness of X9: the reader rejects the bytes. *)
Lemma load_pdf_error_witness :
  load (ext := Fixtures.stub) (Bytes [x00]) "Scan.PDF"
  = Raise (MkExn (OtherError "PdfReadError") "EOF marker not found").
Proof.
  apply (load_pdf_error (ext := Fixtures.stub) [x00] "Scan.PDF").
  - reflexivity.
  - left. reflexivity.
Defined.

(** Witness of X10: a table in CP932. *)
Lemma load_csv_decodes_then_parses_witness :
  exists t,
    _load_text (ext := Fixtures.stub) [x82; xa0; x2c; x41] = Ret t
    /\ _load_csv (ext := Fixtures.stub) [x82; xa0; x2c; x41]
       = (df <- read_csv (Extern := Fixtures.stub) t ;;
          to_markdown (Extern := Fixtures.stub) df).
Proof.
  apply (load_csv_decodes_then_parses (ext := Fixtures.stub)
           [x82; xa0; x2c; x41]).
  - intros encoding data e. apply CodecFacts.decode_strict_raise.
  - intros data. apply CodecFacts.decode_utf8_ignore_returns.
Defined.

(** Witness of X11: a host that cannot be reached, and a missing file
    with an unsupported suffix. *)
Lemma load_io_error_witness :
  load (ext := Fixtures.stub) (Str "https://unreachable.example/") ""
  = Raise (MkExn ConnectionError "Max retries exceeded")
  /\ load (ext := Fixtures.stub) (Str "gone.docx") ""
     = Raise (MkExn FileNotFoundError
                    "[Errno 2] No such file or directory: 'gone.docx'").
Proof.
  split.
  - apply (proj1 (load_io_error (ext := Fixtures.stub)
                    "https://unreachable.example/" ""
                    (MkExn ConnectionError "Max retries exceeded")));
      reflexivity.
  - apply (proj2 (load_io_error (ext := Fixtures.stub) "gone.docx" ""
                    (MkExn FileNotFoundError
                       "[Errno 2] No such file or directory: 'gone.docx'")));
      reflexivity.
Defined.

(** Witness of X12: a page of four lines, two of them blank. *)
Lemma load_web_lines_witness :
  exists lines,
    load (ext := MoreFixtures.desk) (Str "https://example.com/page") ""
    = Ret (join LF lines)
    /\ lines = map PyStr.strip
                   (filter nonblank
                           (PyStr.split "010"%char
                                        (Loader.text MoreFixtures.PAGE)))
    /\ Forall (fun line => line <> "") lines
    /\ PyStr.split "010"%char (join LF lines)
       = match lines with
         | [] => [""]
         | _ :: _ => lines
         end.
Proof.
  apply (load_web_lines (ext := MoreFixtures.desk)
           "https://example.com/page" "" MoreFixtures.PAGE
           (Loader.text MoreFixtures.PAGE)).
  - reflexivity.
  - reflexivity.
  - left. simpl. lia.
  - reflexivity.
Defined.

(** Witness of X13. *)
Lemma load_bytes_named_witness :
  load (ext := Fixtures.stub) (Bytes (list_byte_of_string "hello"))
       "archive.tar.TXT"
  = _load_bytes (ext := Fixtures.stub) (list_byte_of_string "hello")
                (PyStr.lower ".TXT").
Proof.
  apply (load_bytes_named (ext := Fixtures.stub)
           (list_byte_of_string "hello") "archive.tar" "TXT").
  - discriminate.
  - discriminate.
  - unfold chars. simpl. intuition discriminate.
  - unfold chars. simpl. intuition discriminate.
  - unfold chars. simpl. intuition discriminate.
Defined.

(** Witness of X14: a file named [.txt]. *)
Lemma load_bytes_no_suffix_witness :
  load (ext := Fixtures.stub) (Bytes (list_byte_of_string "hello")) ".txt"
  = Raise (MkExn ValueError UNSUPPORTED_FILE).
Proof.
  apply (load_bytes_no_suffix (ext := Fixtures.stub)
           (list_byte_of_string "hello") "." "txt").
  - right. reflexivity.
  - unfold chars. simpl. intuition discriminate.
  - unfold chars. simpl. intuition discriminate.
Defined.

End LoaderMore.

(** ** The presets and the uploads of [app.py] *)

Module AppProps.
Import Chat ChatSpec ChatFacts App ExtraSpec.

Lemma mem_In (x : string) (xs : list string) : mem x xs = true <-> In x xs.
Proof.
  induction xs as [|y ys IH]; simpl.
  - split; [discriminate | tauto].
  - rewrite orb_true_iff, IH, String.eqb_eq. tauto.
Qed.

Lemma is_prefix_refl (xs : list string) : is_prefix xs xs.
Proof. exists []. now rewrite app_nil_r. Qed.

Lemma is_prefix_trans (xs ys zs : list string) :
  is_prefix xs ys -> is_prefix ys zs -> is_prefix xs zs.
Proof.
  intros [t1 ->] [t2 ->]. exists (t1 ++ t2)%list. now rewrite app_assoc.
Qed.

Lemma is_prefix_add (chat : GeminiChat) (key content : string) :
  is_prefix (get_document_list chat)
            (get_document_list (add_document key content chat)).
Proof.
  unfold get_document_list, add_document. simpl.
  rewrite ChatMore.keys_setitem. eexists. reflexivity.
Qed.

Lemma In_add (chat : GeminiChat) (key content k : string) :
  In k (get_document_list (add_document key content chat)) ->
  In k (get_document_list chat) \/ k = key.
Proof.
  unfold get_document_list, add_document. simpl.
  rewrite ChatMore.keys_setitem. intros Hin. apply in_app_or in Hin.
  destruct Hin as [Hin|Hin]; [now left|].
  destruct (contains key (documents chat)); [destruct Hin|].
  destruct Hin as [<-|[]]. now right.
Qed.

Lemma getitem_In (k c : string) (d : dict) :
  getitem k d = Some c -> In k (keys d).
Proof.
  intros Hget. destruct (in_dec string_dec k (keys d)) as [Hin|Hnot];
    [exact Hin|].
  rewrite (ChatMore.getitem_absent _ _ Hnot) in Hget. discriminate.
Qed.

Section WithExtern.

Context {ext : Loader.Extern}.

(** One turn of the preset loop whose attempt raises nothing outside
    [Exception] returns, with the session as it was or with one document
    added under the preset key. *)
Lemma load_preset_cases (chat : GeminiChat) (file_path : string) :
  ordinary (preset_attempt file_path) ->
  load_preset chat file_path = Ret chat
  \/ exists content,
      load_preset chat file_path
      = Ret (add_document (PRESET ++ PyStr.path_name file_path) content chat).
Proof.
  unfold ordinary, preset_attempt. intros Hord. unfold load_preset.
  destruct (mem _ supported_extensions); [|now left].
  destruct (negb _); [|now left].
  destruct (Loader.open_read file_path) as [data|e]; cbn [bind] in *.
  - destruct (Loader.load (Loader.Bytes data) (PyStr.path_name file_path))
      as [content|e]; cbn [bind].
    + right. now exists content.
    + left. apply try_except_caught. now apply Hord.
  - left. apply try_except_caught. now apply Hord.
Qed.

Lemma load_preset_fail (chat : GeminiChat) (file_path : string) (e : exn) :
  preset_attempt file_path = Raise e ->
  isinstance e Exception = true ->
  load_preset chat file_path = Ret chat.
Proof.
  unfold preset_attempt. intros Hfail Hcls. unfold load_preset.
  destruct (mem _ supported_extensions); [|reflexivity].
  destruct (negb _); [|reflexivity].
  destruct (Loader.open_read file_path) as [data|e']; cbn [bind] in *.
  - rewrite Hfail. now apply try_except_caught.
  - injection Hfail as ->. now apply try_except_caught.
Qed.

Lemma load_presets_app (before after : list string) (chat : GeminiChat) :
  load_presets (before ++ after) chat
  = (chat' <- load_presets before chat ;; load_presets after chat').
Proof.
  revert chat. induction before as [|p before IH]; intros chat; simpl.
  - reflexivity.
  - destruct (load_preset chat p) as [chat1|e]; simpl; [apply IH | reflexivity].
Qed.

Lemma load_presets_keep (paths : list string) (chat : GeminiChat) :
  (forall p, In p paths -> ordinary (preset_attempt p)) ->
  exists chat',
    load_presets paths chat = Ret chat'
    /\ is_prefix (get_document_list chat) (get_document_list chat')
    /\ (forall k,
           In k (get_document_list chat') ->
           In k (get_document_list chat) \/ String.prefix PRESET k = true).
Proof.
  revert chat. induction paths as [|p paths IH]; intros chat Hord;
    cbn [load_presets].
  - exists chat. split; [reflexivity|].
    split; [apply is_prefix_refl | tauto].
  - assert (Hrest : forall q, In q paths -> ordinary (preset_attempt q))
      by (intros q Hq; apply Hord; now right).
    destruct (load_preset_cases chat p (Hord p (or_introl eq_refl)))
      as [Hsame | [content Hadd]].
    + rewrite Hsame. cbn [bind]. now apply IH.
    + rewrite Hadd. cbn [bind].
      destruct (IH (add_document (PRESET ++ PyStr.path_name p) content chat)
                   Hrest)
        as (chat' & Hrun & Hpre & Hkeys).
      exists chat'. split; [exact Hrun|]. split.
      * eapply is_prefix_trans; [apply is_prefix_add | exact Hpre].
      * intros k Hin. destruct (Hkeys k Hin) as [Hold | Hp]; [|now right].
        apply In_add in Hold. destruct Hold as [Hold | ->]; [now left|].
        right. apply LoaderFacts.prefix_append.
Qed.

(** One turn of the upload loop whose loading raises nothing outside
    [Exception] returns; it keeps every content and only adds to the keys
    and to the notices. *)
Lemma upload_keep (chat : GeminiChat) (shown : list notice)
      (file : UploadedFile) :
  ordinary (Loader.load (Loader.Bytes (read file)) (name file)) ->
  exists chat' more,
    upload (chat, shown) file = Ret (chat', (shown ++ more)%list)
    /\ is_prefix (get_document_list chat) (get_document_list chat')
    /\ (forall k c,
           getitem k (documents chat) = Some c ->
           getitem k (documents chat') = Some c).
Proof.
  unfold ordinary. intros Hord. unfold upload.
  destruct (mem (name file) (get_document_list chat)) eqn:Hmem; cbn [negb].
  - exists chat, []. rewrite app_nil_r.
    split; [reflexivity|]. split; [apply is_prefix_refl | auto].
  - destruct (Loader.load (Loader.Bytes (read file)) (name file))
      as [content|e]; cbn [bind].
    + eexists. eexists. split; [reflexivity|].
      split; [apply is_prefix_add|].
      intros k c Hget. cbn [add_document set_documents documents].
      rewrite ChatMore.getitem_setitem_other; [exact Hget|].
      intros ->. apply getitem_In in Hget.
      apply mem_In in Hget. unfold get_document_list in Hmem. congruence.
    + rewrite try_except_caught by now apply Hord.
      eexists. eexists. split; [reflexivity|].
      split; [apply is_prefix_refl | auto].
Qed.

(** X15. When the directory is missing, or can be listed and no file of
    it makes [open] or [load] raise an exception outside [Exception],
    [load_preset_documents] returns.  The keys that were listed before
    are still listed first and in the same order, and every other key
    begins with the preset mark. *)
Theorem presets_keep_documents (docs_dir : Dir) (chat : GeminiChat) :
  (exists_ docs_dir = true ->
   exists paths,
     iterdir docs_dir = Ret paths
     /\ forall p, In p paths -> ordinary (preset_attempt p)) ->
  exists chat',
    load_preset_documents docs_dir chat = Ret chat'
    /\ is_prefix (get_document_list chat) (get_document_list chat')
    /\ (forall k,
           In k (get_document_list chat') ->
           In k (get_document_list chat) \/ String.prefix PRESET k = true).
Proof.
  intros Hlist. unfold load_preset_documents.
  destruct (exists_ docs_dir); cbn [negb].
  - destruct (Hlist eq_refl) as (paths & -> & Hord). cbn [bind].
    now apply load_presets_keep.
  - exists chat. split; [reflexivity|].
    split; [apply is_prefix_refl | tauto].
Qed.

(** X16. A preset file whose opening or loading raises an exception
    derived from [Exception] is passed over: the other files of the
    directory are loaded as if it were not there. *)
Theorem failed_preset_is_skipped (before after : list string)
        (bad : string) (chat : GeminiChat) (e : exn) :
  preset_attempt bad = Raise e ->
  isinstance e Exception = true ->
  load_presets (before ++ bad :: after) chat
  = load_presets (before ++ after) chat.
Proof.
  intros Hfail Hcls. rewrite !load_presets_app.
  destruct (load_presets before chat) as [chat1|e1]; cbn [bind];
    [|reflexivity].
  cbn [load_presets].
  now rewrite (load_preset_fail chat1 bad e Hfail Hcls).
Qed.

(** X17. When no uploaded file makes [load] raise an exception outside
    [Exception], the upload loop returns.  It never changes the content
    of a document that is already registered, keeps the keys listed
    before first and in order, and only adds to the notices. *)
Theorem uploads_keep_documents (files : list UploadedFile)
        (chat : GeminiChat) (shown : list notice) :
  (forall file,
      In file files ->
      ordinary (Loader.load (Loader.Bytes (read file)) (name file))) ->
  exists chat' more,
    uploads files (chat, shown) = Ret (chat', (shown ++ more)%list)
    /\ is_prefix (get_document_list chat) (get_document_list chat')
    /\ (forall k c,
           getitem k (documents chat) = Some c ->
           getitem k (documents chat') = Some c).
Proof.
  revert chat shown.
  induction files as [|file files IH]; intros chat shown Hord; cbn [uploads].
  - exists chat, []. rewrite app_nil_r.
    split; [reflexivity|]. split; [apply is_prefix_refl | auto].
  - destruct (upload_keep chat shown file (Hord file (or_introl eq_refl)))
      as (chat1 & more1 & Hup & Hpre1 & Hget1).
    rewrite Hup. cbn [bind].
    destruct (IH chat1 (shown ++ more1)%list) as (chat' & more & Hrun & Hpre & Hget).
    { intros f Hf. apply Hord. now right. }
    exists chat', (more1 ++ more)%list. rewrite app_assoc.
    split; [exact Hrun|]. split.
    + eapply is_prefix_trans; eassumption.
    + intros k c Hk. apply Hget, Hget1, Hk.
Qed.

(** X18. An upload under a name that is not registered and whose loading
    raises an exception derived from [Exception] leaves the session as it
    is and shows one error notice with the name of the file and the
    message of the exception. *)
Theorem failed_upload_is_reported (chat : GeminiChat) (shown : list notice)
        (file : UploadedFile) (e : exn) :
  ~ In (name file) (get_document_list chat) ->
  Loader.load (Loader.Bytes (read file)) (name file) = Raise e ->
  isinstance e Exception = true ->
  upload (chat, shown) file
  = Ret (chat,
         (shown ++ [error (FAIL_MARK ++ name file ++ ": " ++ exn_str e)])%list).
Proof.
  intros Hnew Hfail Hcls. unfold upload.
  destruct (mem (name file) (get_document_list chat)) eqn:Hmem.
  - apply mem_In in Hmem. tauto.
  - cbn [negb]. rewrite Hfail. now apply try_except_caught.
Qed.

End WithExtern.

(** Witness of X15: a directory with a text file, a file that is gone and
    a file of another type. *)
Lemma presets_keep_documents_witness :
  exists chat',
    load_preset_documents (ext := Fixtures.stub)
      {| exists_ := true;
         iterdir := Ret ["notes.txt"; "gone.txt"; "data.bin"] |}
      (Fixtures.session Fixtures.echo_model [("a.txt", "alpha")])
    = Ret chat'
    /\ is_prefix ["a.txt"] (get_document_list chat')
    /\ (forall k,
           In k (get_document_list chat') ->
           In k ["a.txt"] \/ String.prefix PRESET k = true).
Proof.
  apply (presets_keep_documents (ext := Fixtures.stub)
           {| exists_ := true;
              iterdir := Ret ["notes.txt"; "gone.txt"; "data.bin"] |}
           (Fixtures.session Fixtures.echo_model [("a.txt", "alpha")])).
  intros _. exists ["notes.txt"; "gone.txt"; "data.bin"].
  split; [reflexivity|].
  intros p [<-|[<-|[<-|[]]]] e H; vm_compute in H;
    try discriminate H; injection H as <-; reflexivity.
Defined.

(** Witness of X16: the file that is gone comes first. *)
Lemma failed_preset_is_skipped_witness :
  load_presets (ext := Fixtures.stub) ["gone.txt"; "notes.txt"]
               (ChatOps.new_chat Fixtures.echo_model)
  = load_presets (ext := Fixtures.stub) ["notes.txt"]
                 (ChatOps.new_chat Fixtures.echo_model).
Proof.
  apply (failed_preset_is_skipped (ext := Fixtures.stub) [] ["notes.txt"]
           "gone.txt" (ChatOps.new_chat Fixtures.echo_model)
           (MkExn FileNotFoundError
                  "[Errno 2] No such file or directory: 'gone.txt'")).
  - reflexivity.
  - reflexivity.
Defined.

(** Witness of X17: a text file and a document of a type that is not
    supported. *)
Lemma uploads_keep_documents_witness :
  exists chat' more,
    uploads (ext := Fixtures.stub)
            [{| name := "greeting.txt"; read := list_byte_of_string "hello" |};
             {| name := "letter.docx"; read := [x50; x4b] |}]
            (Fixtures.session Fixtures.echo_model [("a.txt", "alpha")], [])
    = Ret (chat', ([] ++ more)%list)
    /\ is_prefix ["a.txt"] (get_document_list chat')
    /\ (forall k c,
           getitem k [("a.txt", "alpha")] = Some c ->
           getitem k (documents chat') = Some c).
Proof.
  apply (uploads_keep_documents (ext := Fixtures.stub)
           [{| name := "greeting.txt"; read := list_byte_of_string "hello" |};
            {| name := "letter.docx"; read := [x50; x4b] |}]
           (Fixtures.session Fixtures.echo_model [("a.txt", "alpha")]) []).
  intros file [<-|[<-|[]]] e H; vm_compute in H;
    try discriminate H; injection H as <-; reflexivity.
Defined.

(** Witness of X18: a document of a type that is not supported. *)
Lemma failed_upload_is_reported_witness :
  upload (ext := Fixtures.stub)
         (ChatOps.new_chat Fixtures.echo_model, [])
         {| name := "letter.docx"; read := [x50; x4b] |}
  = Ret (ChatOps.new_chat Fixtures.echo_model,
         [error (FAIL_MARK ++ "letter.docx" ++ ": "
                 ++ "Unsupported file type: .docx")]).
Proof.
  apply (failed_upload_is_reported (ext := Fixtures.stub)
           (ChatOps.new_chat Fixtures.echo_model) []
           {| name := "letter.docx"; read := [x50; x4b] |}
           (MkExn ValueError "Unsupported file type: .docx")).
  - simpl. tauto.
  - reflexivity.
  - reflexivity.
Defined.

End AppProps.
